(** * VCSL anchoring service: a shallow embedding of [vcsl_api]

    The development follows [services/serv_bsv.py] ([BsvService]),
    [routers/rout_vcsl.py] ([VcslRouter]) and
    [persistance/datastore_postgres.py] ([PostgresDataStore]).

    Conventions.
    - A Python [str] is a [string]: the sequence of bytes of its UTF-8
      encoding, so that [s.encode('utf-8')] is the list of its bytes and
      an f-string is a concatenation.
    - A Python [int] is a [Z]; [bytes] is a [list byte].
    - Code that raises returns a [result]; code that talks to the store or
      to the network runs in the monad [M], which threads the store and
      records every external call in a log.
    - [print] statements have no observable effect here and are dropped. *)

From Stdlib Require Import ZArith List String Ascii Strings.Byte QArith Qround Lia Bool.
From stdpp Require Import gmap strings pretty.

Import ListNotations.
Local Open Scope Z_scope.

(** ** Bytes and integers *)

Module Bytes.

Definition to_Z (b : byte) : Z := Z.of_N (Byte.to_N b).

Definition of_Z (z : Z) : byte :=
  match Byte.of_N (Z.to_N (z mod 256)) with
  | Some b => b
  | None => x00
  end.

(** [int.from_bytes(bs, 'big')] *)
Definition int_from_bytes_big (bs : list byte) : Z :=
  fold_left (fun acc b => acc * 256 + to_Z b) bs 0.

(** [z.to_bytes(n, 'big')] for [0 <= z < 256 ^ n]. *)
Fixpoint int_to_bytes_big (n : nat) (z : Z) : list byte :=
  match n with
  | O => []
  | S k => of_Z (Z.shiftr z (8 * Z.of_nat k)) :: int_to_bytes_big k z
  end.

(** [s.encode('utf-8')] *)
Definition encode_utf8 (s : string) : list byte := list_byte_of_string s.

Definition xor_with (c : Z) (bs : list byte) : list byte :=
  map (fun b => of_Z (Z.lxor (to_Z b) c)) bs.

Definition hex_digit (n : Z) : ascii :=
  ascii_of_nat (Z.to_nat (if n <? 10 then 48 + n else 87 + n)).

(** [bs.hex()] *)
Definition hex (bs : list byte) : string :=
  string_of_list_ascii
    (flat_map (fun b => [hex_digit (to_Z b / 16);
                         hex_digit (to_Z b mod 16)]) bs).

End Bytes.

(** ** [hashlib.sha256] (FIPS 180-4) and [hmac.new(key, msg, sha256).digest()]
    (RFC 2104), on 32-bit words held in [Z]. *)

Module Sha256.
Import Bytes.

Definition mask32 : Z := 0xffffffff.
Definition w32 (x : Z) : Z := Z.land x mask32.
Definition add32 (x y : Z) : Z := w32 (x + y).
Definition rotr (n x : Z) : Z :=
  w32 (Z.lor (Z.shiftr x n) (Z.shiftl x (32 - n))).
Definition shr (n x : Z) : Z := Z.shiftr x n.
Definition xor3 (x y z : Z) : Z := Z.lxor x (Z.lxor y z).

Definition Ch (x y z : Z) : Z :=
  Z.lxor (Z.land x y) (Z.land (Z.lxor x mask32) z).
Definition Maj (x y z : Z) : Z :=
  xor3 (Z.land x y) (Z.land x z) (Z.land y z).
Definition Sigma0 (x : Z) : Z := xor3 (rotr 2 x) (rotr 13 x) (rotr 22 x).
Definition Sigma1 (x : Z) : Z := xor3 (rotr 6 x) (rotr 11 x) (rotr 25 x).
Definition sigma0 (x : Z) : Z := xor3 (rotr 7 x) (rotr 18 x) (shr 3 x).
Definition sigma1 (x : Z) : Z := xor3 (rotr 17 x) (rotr 19 x) (shr 10 x).

(** The first 64 primes, 2 to 311. *)
Definition is_prime (n : Z) : bool :=
  forallb (fun d => (n <=? d) || negb (n mod d =? 0)) (map Z.of_nat (seq 2 16)).

Definition primes : list Z := filter is_prime (map Z.of_nat (seq 2 310)).

(** The integer cube root of [n] between [lo] and [hi], by bisection. *)
Fixpoint root3 (fuel : nat) (lo hi n : Z) : Z :=
  match fuel with
  | O => lo
  | S k =>
      let mid := (lo + hi) / 2 in
      if mid * mid * mid <=? n then root3 k mid hi n else root3 k lo mid n
  end.

(** The round constants: the first 32 bits of the fractional parts of the
    cube roots of the first 64 primes. *)
Definition K : list Z :=
  Eval vm_compute in
    map (fun p => root3 36 0 (2 ^ 35) (p * 2 ^ 96) mod 2 ^ 32) primes.

(** The initial hash value: the same for the square roots of the first 8
    primes. *)
Definition H0 : list Z :=
  Eval vm_compute in
    map (fun p => Z.sqrt (p * 2 ^ 64) mod 2 ^ 32) (firstn 8 primes).

(** Message padding: a [0x80] byte, zeros up to 56 mod 64, then the bit
    length on 8 bytes. *)
Definition pad (msg : list byte) : list byte :=
  let len := Z.of_nat (length msg) in
  let zeros := Z.to_nat ((55 - len) mod 64) in
  msg ++ x80 :: repeat x00 zeros ++ int_to_bytes_big 8 (8 * len).

(** Big-endian 32-bit words of a byte string. *)
Fixpoint words (fuel : nat) (bs : list byte) : list Z :=
  match fuel, bs with
  | S k, b0 :: b1 :: b2 :: b3 :: rest =>
      int_from_bytes_big [b0; b1; b2; b3] :: words k rest
  | _, _ => []
  end.

Fixpoint chunks (fuel : nat) (ws : list Z) : list (list Z) :=
  match fuel, ws with
  | S k, _ :: _ => firstn 16 ws :: chunks k (skipn 16 ws)
  | _, _ => []
  end.

(** Message schedule; [recent] holds the words computed so far, latest
    first. *)
Fixpoint schedule (n : nat) (recent : list Z) : list Z :=
  match n with
  | O => rev recent
  | S k =>
      let w := add32 (add32 (sigma1 (nth 1 recent 0)) (nth 6 recent 0))
                     (add32 (sigma0 (nth 14 recent 0)) (nth 15 recent 0)) in
      schedule k (w :: recent)
  end.

Definition round (st : list Z) (kw : Z * Z) : list Z :=
  match st with
  | [a; b; c; d; e; f; g; h] =>
      let t1 := add32 (add32 (add32 h (Sigma1 e)) (Ch e f g))
                      (add32 (fst kw) (snd kw)) in
      let t2 := add32 (Sigma0 a) (Maj a b c) in
      [add32 t1 t2; a; b; c; add32 d t1; e; f; g]
  | _ => st
  end.

Definition compress (h : list Z) (block : list Z) : list Z :=
  let w := schedule 48 (rev block) in
  let st := fold_left round (combine K w) h in
  map (fun p => add32 (fst p) (snd p)) (combine h st).

Definition sha256 (msg : list byte) : list byte :=
  let p := pad msg in
  let ws := words (length p) p in
  let h := fold_left compress (chunks (length ws) ws) H0 in
  flat_map (int_to_bytes_big 4) h.

Definition block_size : nat := 64.

Definition hmac_sha256 (key msg : list byte) : list byte :=
  let k0 := if (block_size <? length key)%nat then sha256 key else key in
  let k := k0 ++ repeat x00 (block_size - length k0) in
  sha256 (xor_with 0x5c k ++ sha256 (xor_with 0x36 k ++ msg)).

End Sha256.

(** ** The Python values and exceptions the service handles *)

Module Py.

(** Exceptions, by class, with the text [str(e)] prints.  [Exception] is
    what the service raises itself; [RequestException] stands for
    [requests.exceptions.RequestException] and its subclasses;
    [HTTPException] is FastAPI's; [BuiltinError] covers the errors the
    interpreter and the drivers raise ([TypeError], [ValueError],
    [AttributeError], ...), all of them subclasses of [Exception]. *)
Inductive exn : Type :=
| Exception (msg : string)
| RequestException (msg : string)
| BuiltinError (cls : string) (msg : string)
| HTTPException (status_code : Z) (detail : string).

(** [str(e)]; for [HTTPException] the text is Starlette's
    ["<status>: <detail>"]. *)
Definition str (e : exn) : string :=
  match e with
  | Exception m | RequestException m | BuiltinError _ m => m
  | HTTPException c d => pretty c +:+ ": " +:+ d
  end.

Inductive result (A : Type) : Type :=
| Return (a : A)
| Raise (e : exn).
Arguments Return {A} a.
Arguments Raise {A} e.

#[export] Instance result_ret : MRet result := fun A a => Return a.
#[export] Instance result_bind : MBind result := fun A B f r =>
  match r with
  | Return a => f a
  | Raise e => Raise e
  end.

(** A float is not-a-number, an infinity, or a finite value (a dyadic
    rational, kept as a [Q]). *)
Inductive pyfloat : Type :=
| FNan
| FInf (negative : bool)
| FFinite (q : Q).

(** What [response.json()] and the store hand back.  A [dict] keeps its
    insertion order, so it is a list of bindings with distinct keys. *)
#[warnings="-register-all"]
Inductive pyval : Type :=
| PNone
| PBool (b : bool)
| PInt (z : Z)
| PFloat (f : pyfloat)
| PStr (s : string)
| PList (l : list pyval)
| PTuple (l : list pyval)
| PDict (d : list (string * pyval)).

(** Truncation toward zero, as [int(x)] does on a float. *)
Definition Qtruncate (q : Q) : Z := Z.quot (Qnum q) (Z.pos (Qden q)).

(** The float an [int] becomes when it meets a float in a product: the
    nearest number with a significand of 53 bits, a tie going to the even
    one.  It is the integer itself up to 2^53 in absolute value.  (Python
    raises [OverflowError] from 2^1024 on, far beyond any size in bytes;
    the function is meant below that.) *)
Definition float_of_int (z : Z) : Z :=
  let a := Z.abs z in
  let shift := Z.log2 a + 1 - 53 in
  if shift <=? 0 then z
  else
    let q := Z.shiftr a shift in
    let r := Z.land a (Z.ones shift) in
    let half := Z.shiftl 1 (shift - 1) in
    let q' := if (half <? r) || ((r =? half) && Z.odd q) then q + 1 else q in
    Z.sgn z * Z.shiftl q' shift.

(** [bool(v)] *)
Definition truthy (v : pyval) : bool :=
  match v with
  | PNone => false
  | PBool b => b
  | PInt z => negb (z =? 0)
  | PFloat (FFinite q) => negb (Qnum q =? 0)
  | PFloat _ => true
  | PStr s => negb (String.eqb s EmptyString)
  | PList l | PTuple l => negb (Nat.eqb (length l) 0)
  | PDict d => negb (Nat.eqb (length d) 0)
  end.

(** [isinstance(v, int)]; [bool] is a subclass of [int]. *)
Definition isinstance_int (v : pyval) : bool :=
  match v with
  | PInt _ | PBool _ => true
  | _ => false
  end.

(** [v is None] *)
Definition is_None (v : pyval) : bool :=
  match v with
  | PNone => true
  | _ => false
  end.

(** The built-in functions whose full definition lies in the interpreter:
    [int_of_str s] is [int(s)] on a [str], [None] when it raises
    [ValueError]; [format_value v] is the text an f-string puts for
    [{v}]. *)
Class Builtins : Type :=
  { int_of_str : string -> option Z;
    format_value : pyval -> string }.

(** [int(v)] *)
Definition int `{Builtins} (v : pyval) : result Z :=
  match v with
  | PInt z => Return z
  | PBool b => Return (if b then 1 else 0)
  | PFloat (FFinite q) => Return (Qtruncate q)
  | PFloat FNan =>
      Raise (BuiltinError "ValueError" "cannot convert float NaN to integer")
  | PFloat (FInf _) =>
      Raise (BuiltinError "OverflowError" "cannot convert float infinity to integer")
  | PStr s =>
      match int_of_str s with
      | Some z => Return z
      | None => Raise (BuiltinError "ValueError" "invalid literal for int() with base 10")
      end
  | _ => Raise (BuiltinError "TypeError" "int() argument must be a string, a bytes-like object or a real number")
  end.

Fixpoint assoc (k : string) (d : list (string * pyval)) : option pyval :=
  match d with
  | [] => None
  | (k', v) :: rest => if String.eqb k k' then Some v else assoc k rest
  end.

(** [v.get(key, default)]: only a [dict] has the method (of the values
    JSON produces). *)
Definition get (v : pyval) (key : string) (default : pyval) : result pyval :=
  match v with
  | PDict d => Return (match assoc key d with Some x => x | None => default end)
  | _ => Raise (BuiltinError "AttributeError" "object has no attribute 'get'")
  end.

End Py.

(** Iteration and unpacking.  A [str] iterates over its code points, a
    [dict] over its keys. *)
Module PyIter.
Import Py.

Definition is_continuation (c : ascii) : bool :=
  let n := Z.of_nat (nat_of_ascii c) in (128 <=? n) && (n <? 192).

Definition starts_with_continuation (s : string) : bool :=
  match s with
  | String c _ => is_continuation c
  | EmptyString => false
  end.

Fixpoint code_points (s : string) : list string :=
  match s with
  | EmptyString => []
  | String c rest =>
      match code_points rest with
      | hd :: tl =>
          if starts_with_continuation rest then String c hd :: tl
          else String c EmptyString :: hd :: tl
      | [] => [String c EmptyString]
      end
  end.

(** [iter(v)] run to the end. *)
Definition iter (v : pyval) : result (list pyval) :=
  match v with
  | PList l | PTuple l => Return l
  | PDict d => Return (map (fun kv => PStr (fst kv)) d)
  | PStr s => Return (map PStr (code_points s))
  | _ => Raise (BuiltinError "TypeError" "object is not iterable")
  end.

(** [a, b = v] *)
Definition unpack2 (v : pyval) : result (pyval * pyval) :=
  items ← iter v;
  match items with
  | [a; b] => Return (a, b)
  | _ => Raise (BuiltinError "ValueError" "wrong number of values to unpack")
  end.

End PyIter.

(** [s.strip()] and [s.strip(chars)].  Only the ASCII white space is
    known to [strip]. *)
Module PyStr.

Definition is_space (c : ascii) : bool :=
  let n := nat_of_ascii c in
  ((9 <=? n) && (n <=? 13) || (28 <=? n) && (n <=? 32))%nat.

Fixpoint lstrip_by (p : ascii -> bool) (s : string) : string :=
  match s with
  | String c rest => if p c then lstrip_by p rest else s
  | EmptyString => s
  end.

Definition reverse (s : string) : string :=
  string_of_list_ascii (rev (list_ascii_of_string s)).

Definition strip_by (p : ascii -> bool) (s : string) : string :=
  reverse (lstrip_by p (reverse (lstrip_by p s))).

Definition strip (s : string) : string := strip_by is_space s.

Definition strip_char (c : ascii) (s : string) : string :=
  strip_by (Ascii.eqb c) s.

Definition double_quote : ascii := ascii_of_nat 34.

End PyStr.

(** ** [bsvlib]: keys, scripts and transactions *)

Module bsvlib.

(** [bsvlib.curve.N], the order of the secp256k1 group. *)
Definition N : Z :=
  0xFFFFFFFFFFFFFFFFFFFFFFFFFFFFFFFEBAAEDCE6AF48A03BBFD25E8CD0364141.

Module Key.
Record t : Type := { private_int : Z; network : string }.

(** The private scalar on 32 bytes, most significant first. *)
Definition private_bytes (k : t) : list byte :=
  Bytes.int_to_bytes_big 32 (private_int k).

Definition from_int (scalar : Z) (network : string) : t :=
  {| private_int := scalar; network := network |}.
End Key.

(** A script is kept as its hexadecimal form. *)
Definition Script := string.

Module TxInput.
Record t : Type :=
  { txid : Py.pyval;
    index : Py.pyval;
    sats : Z;
    script_pubkey : string;
    signed_by : option Key.t }.
End TxInput.

Module TxOutput.
Record t : Type := { sats : Z; script_pubkey : Script }.
End TxOutput.

Module Tx.
Record t : Type :=
  { network : string;
    inputs : list TxInput.t;
    outputs : list TxOutput.t }.

Definition new (network : string) : t :=
  {| network := network; inputs := []; outputs := [] |}.

Definition add_input (tx : t) (txid index : Py.pyval) (sats : Z)
    (script_pubkey : string) : t :=
  {| network := network tx;
     inputs := inputs tx ++
               [{| TxInput.txid := txid; TxInput.index := index;
                   TxInput.sats := sats;
                   TxInput.script_pubkey := script_pubkey;
                   TxInput.signed_by := None |}];
     outputs := outputs tx |}.

Definition add_output (tx : t) (o : TxOutput.t) : t :=
  {| network := network tx; inputs := inputs tx;
     outputs := outputs tx ++ [o] |}.

(** [tx.outputs.pop()] on a transaction that has an output. *)
Definition outputs_pop (tx : t) : t :=
  {| network := network tx; inputs := inputs tx;
     outputs := removelast (outputs tx) |}.

(** [tx.sign(keys=[key])]: every input is unlocked with [key]. *)
Definition sign (tx : t) (key : Key.t) : t :=
  {| network := network tx;
     inputs := map (fun i =>
                 {| TxInput.txid := TxInput.txid i;
                    TxInput.index := TxInput.index i;
                    TxInput.sats := TxInput.sats i;
                    TxInput.script_pubkey := TxInput.script_pubkey i;
                    TxInput.signed_by := Some key |}) (inputs tx);
     outputs := outputs tx |}.

Definition input_value (tx : t) : Z :=
  fold_right Z.add 0 (map TxInput.sats (inputs tx)).

Definition output_value (tx : t) : Z :=
  fold_right Z.add 0 (map TxOutput.sats (outputs tx)).
End Tx.

(** What the library computes with elliptic-curve arithmetic, address
    encoding and serialisation: the address of a key, the pay-to-public-
    key-hash script of an address, the estimated size, the identifier and
    the wire form of a transaction. *)
Class Lib : Type :=
  { address : Key.t -> string;
    p2pkh : string -> Script;
    estimated_size : Tx.t -> Z;
    txid : Tx.t -> string;
    hex : Tx.t -> string }.

End bsvlib.

(** ** [requests]: the two HTTP calls to WhatsOnChain *)

Module requests.
Import Py.

Record Response : Type :=
  { status_code : Z;
    text : string;
    (** the body as JSON, when it is JSON *)
    json_body : option pyval }.

(** A request is answered, or fails in transport (connection refused,
    timeout, ...). *)
Inductive outcome : Type :=
| Failed (msg : string)
| Responded (r : Response).

(** [response.raise_for_status()] *)
Definition raise_for_status (url : string) (r : Response) : result unit :=
  if (400 <=? status_code r) && (status_code r <? 600)
  then Raise (RequestException
                (pretty (status_code r) +:+ " Error for url: " +:+ url))
  else Return tt.

(** [response.json()] *)
Definition json (r : Response) : result pyval :=
  match json_body r with
  | Some v => Return v
  | None => Raise (RequestException "Expecting value")
  end.

End requests.

(** ** Effects: the store, the network and the log of external calls *)

Module Effects.
Import Py.

(** The methods [BsvService] calls on its [db_service], with their
    arguments. *)
Inductive db_call : Type :=
| update_issuer_url (issuer_id new_url : string)
| store_issuer_anchor (issuer_id txid : string)
| store_vcsl (id ipns txid : string)
| get_issuer_url (issuer_id : string)
| get_vcsl (id : string).

Inductive event : Type :=
| HttpGet (url : string) (o : requests.outcome)
| HttpPost (url : string) (txhex : string) (o : requests.outcome)
| DbCall (c : db_call).

(** The network answers a request knowing what happened before it. *)
Class Network : Type :=
  { http_get : list event -> string -> requests.outcome;
    http_post : list event -> string -> string -> requests.outcome }.

(** The injected [db_service] object, over a store of type [S]: each
    method runs on the store and returns or raises. *)
Record DbService (S : Type) : Type :=
  { db_update_issuer_url : string -> string -> S -> result unit * S;
    db_store_issuer_anchor : string -> string -> S -> result unit * S;
    db_store_vcsl : string -> string -> string -> S -> result unit * S;
    db_get_issuer_url : string -> S -> result pyval * S;
    db_get_vcsl : string -> S -> result pyval * S }.
Arguments db_update_issuer_url {S}.
Arguments db_store_issuer_anchor {S}.
Arguments db_store_vcsl {S}.
Arguments db_get_issuer_url {S}.
Arguments db_get_vcsl {S}.

Record world (S : Type) : Type := { store : S; log : list event }.
Arguments store {S}.
Arguments log {S}.

Definition M (S A : Type) : Type := world S -> result A * world S.

Section Monad.
Context {S : Type}.

Definition ret {A} (a : A) : M S A := fun w => (Return a, w).

Definition raise {A} (e : exn) : M S A := fun w => (Raise e, w).

Definition bind {A B} (m : M S A) (k : A -> M S B) : M S B := fun w =>
  match m w with
  | (Return a, w') => k a w'
  | (Raise e, w') => (Raise e, w')
  end.

(** [try: body  except Exception as e: handler] *)
Definition try_except {A} (body : M S A) (handler : exn -> M S A) : M S A :=
  fun w =>
    match body w with
    | (Return a, w') => (Return a, w')
    | (Raise e, w') => handler e w'
    end.

Definition lift {A} (r : result A) : M S A := fun w => (r, w).

Definition record (e : event) (w : world S) : world S :=
  {| store := store w; log := log w ++ [e] |}.

(** [requests.get(url)] *)
Definition requests_get `{Network} (url : string) : M S requests.Response :=
  fun w =>
    let o := http_get (log w) url in
    match o with
    | requests.Failed m => (Raise (RequestException m), record (HttpGet url o) w)
    | requests.Responded r => (Return r, record (HttpGet url o) w)
    end.

(** [requests.post(url, json={"txhex": tx_hex})] *)
Definition requests_post `{Network} (url tx_hex : string) : M S requests.Response :=
  fun w =>
    let o := http_post (log w) url tx_hex in
    match o with
    | requests.Failed m =>
        (Raise (RequestException m), record (HttpPost url tx_hex o) w)
    | requests.Responded r =>
        (Return r, record (HttpPost url tx_hex o) w)
    end.

(** A call of a [db_service] method. *)
Definition invoke {A} (c : db_call) (method : S -> result A * S) : M S A :=
  fun w =>
    let (r, s') := method (store w) in
    (r, {| store := s'; log := log w ++ [DbCall c] |}).

End Monad.

#[export] Instance M_ret {S} : MRet (M S) := @ret S.
#[export] Instance M_bind {S} : MBind (M S) := fun A B k m => bind m k.

Definition is_write (c : db_call) : bool :=
  match c with
  | update_issuer_url _ _ | store_issuer_anchor _ _ | store_vcsl _ _ _ => true
  | get_issuer_url _ | get_vcsl _ => false
  end.

(** A broadcast the endpoint accepted. *)
Definition accepted (o : requests.outcome) : bool :=
  match o with
  | requests.Responded r =>
      negb ((400 <=? requests.status_code r) && (requests.status_code r <? 600))
  | requests.Failed _ => false
  end.

End Effects.

(** ** [services/serv_bsv.py] *)

Module BsvService.
Import Py Effects bsvlib.

Definition VCSL_PROTOCOL_ID : string := "quarkid-vcsl".
Definition WOC_API_BASE_URL : string := "https://api.whatsonchain.com/v1/bsv".

Record t (S : Type) : Type :=
  { db_service : DbService S;
    network : string;
    wallet_key : Key.t }.
Arguments db_service {S}.
Arguments network {S}.
Arguments wallet_key {S}.

(** The dictionaries [_fetch_utxos] builds. *)
Module Utxo.
Record t : Type :=
  { txid : pyval; index : pyval; sats : Z; script_pubkey : string }.
End Utxo.

Definition dust_amount : Z := 546.
Definition fee_rate : Q := 1 # 2.
Definition temp_change_sats : Z := 1.

Section Service.
Context `{Builtins} `{Lib} `{Network} {S : Type}.

(** [f"{protocol}/{key_id}"] *)
Definition context_string (protocol key_id : string) : string :=
  protocol +:+ "/" +:+ key_id.

Definition _derive_brc42_key (self : t S) (key_id protocol : string) : Key.t :=
  let hmac_key := Key.private_bytes (wallet_key self) in
  let message := Bytes.encode_utf8 (context_string protocol key_id) in
  let hmac_digest := Sha256.hmac_sha256 hmac_key message in
  let scalar := Bytes.int_from_bytes_big hmac_digest in
  let master_scalar := Key.private_int (wallet_key self) in
  let child_scalar := (master_scalar + scalar) mod N in
  Key.from_int child_scalar (network self).

(** The body of the [for utxo_data in data] loop, [utxos] being the
    list built so far. *)
Fixpoint fetch_loop (address : string) (data : list pyval)
    (utxos : list Utxo.t) : result (list Utxo.t) :=
  match data with
  | [] => Return utxos
  | utxo_data :: rest =>
      value ← Py.get utxo_data "value" (PInt 0);
      sats ← Py.int value;
      txid ← Py.get utxo_data "tx_hash" PNone;
      index ← Py.get utxo_data "tx_pos" PNone;
      if (0 <? sats) && truthy txid && isinstance_int index
      then
        let script_pubkey_hex := p2pkh address in
        fetch_loop address rest
          (utxos ++ [{| Utxo.txid := txid; Utxo.index := index;
                        Utxo.sats := sats;
                        Utxo.script_pubkey := script_pubkey_hex |}])
      else fetch_loop address rest utxos
  end.

(** [u] is the dictionary the loop appends for the entry [utxo_data]. *)
Definition appended_for (address : string) (utxo_data : pyval) (u : Utxo.t) : Prop :=
  exists value,
    Py.get utxo_data "value" (PInt 0) = Return value
    /\ Py.int value = Return (Utxo.sats u)
    /\ Py.get utxo_data "tx_hash" PNone = Return (Utxo.txid u)
    /\ Py.get utxo_data "tx_pos" PNone = Return (Utxo.index u)
    /\ Utxo.script_pubkey u = p2pkh address.

Definition unspent_url (self : t S) (address : string) : string :=
  WOC_API_BASE_URL +:+ "/" +:+ network self +:+ "/address/" +:+ address
    +:+ "/unspent".

Definition _fetch_utxos (self : t S) (address : string) : M S (list Utxo.t) :=
  let url := unspent_url self address in
  try_except
    (response ← requests_get url;
     _ ← lift (requests.raise_for_status url response);
     data ← lift (requests.json response);
     items ← lift (PyIter.iter data);
     lift (fetch_loop address items []))
    (fun e =>
       match e with
       | RequestException _ => mret []
       | _ => mret []
       end).

(** [fee = max(1, int(estimated_size_bytes * fee_rate))].  The product
    is a product of floats: the size is first rounded to a float, the
    multiplication by [fee_rate = 0.5] is then exact, and [int] truncates
    the result. *)
Definition calculate_fee (estimated_size_bytes : Z) : Z :=
  Z.max 1 (Qtruncate (inject_Z (float_of_int estimated_size_bytes) * fee_rate)).

(** The transaction as it stands when the fee calculation starts: the
    selected output as only input, the dust output to the derived
    address. *)
Definition funded_tx (self : t S) (derived_key : Key.t)
    (utxo_to_spend : Utxo.t) : Tx.t :=
  let t := Tx.new (network self) in
  let t := Tx.add_input t (Utxo.txid utxo_to_spend) (Utxo.index utxo_to_spend)
             (Utxo.sats utxo_to_spend) (Utxo.script_pubkey utxo_to_spend) in
  Tx.add_output t {| TxOutput.sats := dust_amount;
                     TxOutput.script_pubkey := p2pkh (address derived_key) |}.

(** The size estimated with the placeholder change output in place. *)
Definition estimate_with_placeholder (self : t S) (t : Tx.t) : Z :=
  let temp_change_script := p2pkh (address (wallet_key self)) in
  let t := Tx.add_output t {| TxOutput.sats := temp_change_sats;
                              TxOutput.script_pubkey := temp_change_script |} in
  estimated_size t.

Definition insufficient_funds (utxo_to_spend : Utxo.t) (fee : Z) : exn :=
  Exception ("Insufficient funds in selected UTXO "
             +:+ format_value (Utxo.txid utxo_to_spend) +:+ ":"
             +:+ format_value (Utxo.index utxo_to_spend)
             +:+ ". Needed: " +:+ pretty (dust_amount + fee)
             +:+ ", Available: " +:+ pretty (Utxo.sats utxo_to_spend) +:+ ".").

(** The locals [fee] and [change_sats] of [_create_anchor_tx], as
    functions of the selected output. *)
Definition fee_of (self : t S) (derived_key : Key.t) (utxo_to_spend : Utxo.t) : Z :=
  calculate_fee (estimate_with_placeholder self (funded_tx self derived_key utxo_to_spend)).

Definition change_of (self : t S) (derived_key : Key.t) (utxo_to_spend : Utxo.t) : Z :=
  Utxo.sats utxo_to_spend - dust_amount - fee_of self derived_key utxo_to_spend.

(** [_create_anchor_tx] from the point where [utxos] is known: it makes no
    further external call. *)
Definition build_anchor_tx (self : t S) (derived_key : Key.t)
    (utxos : list Utxo.t) : result Tx.t :=
  match utxos with
  | [] =>
      Raise (Exception ("No spendable UTXOs found for address "
                        +:+ address (wallet_key self)))
  | utxo_to_spend :: _ =>
      let t := funded_tx self derived_key utxo_to_spend in
      let estimated_size_bytes := estimate_with_placeholder self t in
      let t := Tx.outputs_pop
                 (Tx.add_output t
                    {| TxOutput.sats := temp_change_sats;
                       TxOutput.script_pubkey := p2pkh (address (wallet_key self)) |}) in
      let fee := calculate_fee estimated_size_bytes in
      let change_sats := Utxo.sats utxo_to_spend - dust_amount - fee in
      if change_sats <? 0
      then Raise (insufficient_funds utxo_to_spend fee)
      else
        let t :=
          if dust_amount <=? change_sats
          then Tx.add_output t
                 {| TxOutput.sats := change_sats;
                    TxOutput.script_pubkey := p2pkh (address (wallet_key self)) |}
          else t in
        Return (Tx.sign t (wallet_key self))
  end.

Definition _create_anchor_tx (self : t S) (derived_key : Key.t) : M S Tx.t :=
  utxos ← _fetch_utxos self (address (wallet_key self));
  lift (build_anchor_tx self derived_key utxos).

Definition broadcast_url (self : t S) : string :=
  WOC_API_BASE_URL +:+ "/" +:+ network self +:+ "/tx/raw".

Definition _broadcast_tx (self : t S) (tx : Tx.t) : M S string :=
  let tx_hex := hex tx in
  let url := broadcast_url self in
  try_except
    (response ← requests_post url tx_hex;
     _ ← lift (requests.raise_for_status url response);
     let txid_response :=
       PyStr.strip_char PyStr.double_quote
         (PyStr.strip (requests.text response)) in
     if String.eqb txid_response (txid tx)
     then mret txid_response
     else mret (txid tx))
    (fun e =>
       match e with
       | RequestException _ =>
           raise (Exception ("Failed to broadcast transaction: " +:+ str e))
       | _ => raise e
       end).

Definition set_issuer_url (self : t S) (issuer_id new_issuer_url : string)
    : M S (option string) :=
  _ ← try_except
        (invoke (update_issuer_url issuer_id new_issuer_url)
           (db_update_issuer_url (db_service self) issuer_id new_issuer_url))
        (fun db_err =>
           raise (Exception ("Failed to update issuer URL in database: "
                             +:+ str db_err)));
  try_except
    (let derived_key :=
       _derive_brc42_key self ("issuer/" +:+ issuer_id) VCSL_PROTOCOL_ID in
     anchor_tx ← _create_anchor_tx self derived_key;
     txid ← _broadcast_tx self anchor_tx;
     _ ← try_except
           (invoke (store_issuer_anchor issuer_id txid)
              (db_store_issuer_anchor (db_service self) issuer_id txid))
           (fun db_err => mret tt);
     mret (Some txid))
    (fun e => mret None).

Definition anchor_failed (id : string) (e : exn) : exn :=
  Exception ("Failed to create BSV anchor for VCSL " +:+ id +:+ ": " +:+ str e).

Definition anchored_not_stored (id txid : string) (db_err : exn) : exn :=
  Exception ("VCSL " +:+ id +:+ " anchored (" +:+ txid
             +:+ "), but failed to store in DB: " +:+ str db_err).

Definition add_vcsl (self : t S) (id ipns : string) : M S string :=
  txid ← try_except
           (let derived_key :=
              _derive_brc42_key self ("vcsl/" +:+ id) VCSL_PROTOCOL_ID in
            anchor_tx ← _create_anchor_tx self derived_key;
            txid ← _broadcast_tx self anchor_tx;
            mret txid)
           (fun e => raise (anchor_failed id e));
  try_except
    (_ ← invoke (store_vcsl id ipns txid)
           (db_store_vcsl (db_service self) id ipns txid);
     mret txid)
    (fun db_err => raise (anchored_not_stored id txid db_err)).

Definition get_issuer_url (self : t S) (issuer_id : string) : M S pyval :=
  try_except
    (url ← invoke (Effects.get_issuer_url issuer_id)
             (db_get_issuer_url (db_service self) issuer_id);
     mret url)
    (fun db_err => mret PNone).

Definition get_vcsl (self : t S) (id : string) : M S (pyval * pyval) :=
  try_except
    (row ← invoke (Effects.get_vcsl id)
             (db_get_vcsl (db_service self) id);
     '(ipns, txid) ← lift (PyIter.unpack2 row);
     mret (ipns, txid))
    (fun db_err => mret (PNone, PNone)).

(** The three statements that open the [try] blocks of [set_issuer_url]
    and [add_vcsl]: derive, build, broadcast. *)
Definition anchor (self : t S) (key_id : string) : M S string :=
  let derived_key := _derive_brc42_key self key_id VCSL_PROTOCOL_ID in
  anchor_tx ← _create_anchor_tx self derived_key;
  _broadcast_tx self anchor_tx.

(** What [_fetch_utxos] makes of the indexer's answer. *)
Definition parse_unspent (self : t S) (address : string) (o : requests.outcome)
    : result (list Utxo.t) :=
  match o with
  | requests.Failed m => Raise (RequestException m)
  | requests.Responded response =>
      _ ← requests.raise_for_status (unspent_url self address) response;
      data ← requests.json response;
      items ← PyIter.iter data;
      fetch_loop address items []
  end.

Definition fetched (self : t S) (address : string) (o : requests.outcome)
    : list Utxo.t :=
  match parse_unspent self address o with
  | Return utxos => utxos
  | Raise _ => []
  end.

(** What [_broadcast_tx] makes of the endpoint's answer. *)
Definition broadcast_result (self : t S) (tx : Tx.t) (o : requests.outcome)
    : result string :=
  match o with
  | requests.Failed m =>
      Raise (Exception ("Failed to broadcast transaction: " +:+ m))
  | requests.Responded response =>
      match requests.raise_for_status (broadcast_url self) response with
      | Raise e => Raise (Exception ("Failed to broadcast transaction: " +:+ str e))
      | Return _ => Return (txid tx)
      end
  end.

End Service.
End BsvService.

(** ** [persistance/datastore_postgres.py] *)

Module PostgresDataStore.
Import Py Effects.

(** The two tables, keyed by their primary key; [pool] tells whether
    [init_connections] has set up the pool, [server_up] whether the
    server answers.  A method checks the pool, then opens a connection,
    then hands the statement and its parameters to the driver. *)
Record t : Type :=
  { pool : bool;
    server_up : bool;
    issuer_urls : gmap string (string * option string);
    vcsl_data : gmap string (string * string) }.

Definition not_initialized : exn :=
  Exception "Connection pool not initialized. Call init_connections first.".

Definition query_failed : exn :=
  BuiltinError "OperationalError" "connection failed".

(** What the driver raises when it is handed a text parameter with a NUL
    character in it. *)
Definition data_error : exn :=
  BuiltinError "DataError" "PostgreSQL text fields cannot contain NUL (0x00) bytes".

Fixpoint has_nul (s : string) : bool :=
  match s with
  | EmptyString => false
  | String c rest => Ascii.eqb c Ascii.zero || has_nul rest
  end.




Definition column (c : option string) : pyval :=
  match c with
  | Some s => PStr s
  | None => PNone
  end.

Definition get_issuer_url (issuer_id : string) (self : t) : result pyval * t :=
  if negb (pool self) then (Raise not_initialized, self)
  else if negb (server_up self) then (Raise query_failed, self)
  else if has_nul issuer_id then (Raise data_error, self)
  else match issuer_urls self !! issuer_id with
       | Some (url, txid) => (Return (PTuple [PStr url; column txid]), self)
       | None => (Return PNone, self)
       end.

Definition store_vcsl (id ipns txid : string) (self : t) : result unit * t :=
  if negb (pool self) then (Raise not_initialized, self)
  else if negb (server_up self) then (Raise query_failed, self)
  else if has_nul id || has_nul ipns || has_nul txid
  then (Raise data_error, self)
  else (Return tt,
        {| pool := pool self; server_up := server_up self;
           issuer_urls := issuer_urls self;
           vcsl_data := <[id := (ipns, txid)]> (vcsl_data self) |}).

Definition get_vcsl (id : string) (self : t) : result pyval * t :=
  if negb (pool self) then (Raise not_initialized, self)
  else if negb (server_up self) then (Raise query_failed, self)
  else if has_nul id then (Raise data_error, self)
  else match vcsl_data self !! id with
       | Some (ipns, txid) => (Return (PTuple [PStr ipns; PStr txid]), self)
       | None => (Return PNone, self)
       end.

Definition no_attribute {A} (name : string) (self : t) : result A * t :=
  (Raise (BuiltinError "AttributeError"
            ("'PostgresDataStore' object has no attribute '" +:+ name +:+ "'")),
   self).

(** The object as [di_init] hands it to [BsvService]: the class has no
    [update_issuer_url] and no [store_issuer_anchor]. *)
Definition as_db_service : DbService t :=
  {| db_update_issuer_url := fun _ _ => no_attribute "update_issuer_url";
     db_store_issuer_anchor := fun _ _ => no_attribute "store_issuer_anchor";
     db_store_vcsl := store_vcsl;
     db_get_issuer_url := get_issuer_url;
     db_get_vcsl := get_vcsl |}.

End PostgresDataStore.

(** ** [routers/rout_vcsl.py] *)

Module VcslRouter.
Import Py Effects.

Record URLDto : Type := { url : option string }.
Record VCSLDto : Type := { id : option string; ipns : option string }.

Section Router.
Context `{Builtins} `{bsvlib.Lib} `{Network} {S : Type}.

Record t : Type := { bsv_service : BsvService.t S }.

Definition set_issuer_url (self : t) (issuer_id : string)
    (url_data : option URLDto) : M S pyval :=
  match url_data with
  | Some {| url := Some new_url |} =>
      try_except
        (txid ← BsvService.set_issuer_url (bsv_service self) issuer_id new_url;
         match txid with
         | Some (String c rest as txid) =>
             mret (PDict [("issuer_id", PStr issuer_id); ("txid", PStr txid)])
         | _ =>
             mret (PDict [("issuer_id", PStr issuer_id);
                          ("status", PStr "URL updated off-chain, anchoring failed or skipped")])
         end)
        (fun e => raise (HTTPException 500 ("Error setting issuer URL: " +:+ str e)))
  | _ => raise (HTTPException 400 "URL data not provided")
  end.

Definition add_vcsl (self : t) (data : option VCSLDto) : M S pyval :=
  match data with
  | Some {| id := Some id; ipns := Some ipns |} =>
      try_except
        (txid ← BsvService.add_vcsl (bsv_service self) id ipns;
         mret (PDict [("id", PStr id); ("txid", PStr txid)]))
        (fun e => raise (HTTPException 500 ("Error adding vcsl: " +:+ str e)))
  | _ => raise (HTTPException 400 "VCSL data not provided")
  end.

Definition get_issuer_url (self : t) (issuer_id : string) : M S pyval :=
  try_except
    (url ← BsvService.get_issuer_url (bsv_service self) issuer_id;
     if is_None url
     then raise (HTTPException 404 ("Issuer URL not found for " +:+ issuer_id))
     else mret (PDict [("issuer_id", PStr issuer_id); ("url", url)]))
    (fun e => raise (HTTPException 500 ("Error retrieving issuer URL: " +:+ str e))).

Definition get_vcsl (self : t) (id : string) : M S pyval :=
  try_except
    ('(ipns, txid) ← BsvService.get_vcsl (bsv_service self) id;
     if is_None ipns
     then raise (HTTPException 404 ("VCSL data not found for id " +:+ id))
     else mret (PDict [("id", PStr id); ("ipns", ipns); ("txid", txid)]))
    (fun e => raise (HTTPException 500 ("Error retrieving VCSL data: " +:+ str e))).

End Router.
Arguments t S : clear implicits.
End VcslRouter.

(** ** Test doubles

    Stand-ins for the interpreter, [bsvlib], the network and the store of
    the kind a unit test of the service would use; the examples run the
    service on them. *)

Module Simulation.
Import Py Effects bsvlib.

Fixpoint digits (s : string) (acc : Z) : option Z :=
  match s with
  | EmptyString => Some acc
  | String c rest =>
      let n := Z.of_nat (nat_of_ascii c) in
      if (48 <=? n) && (n <=? 57) then digits rest (acc * 10 + (n - 48))
      else None
  end.

(** Plain decimal literals, and the formatting of the scalar values. *)
Definition builtins : Builtins :=
  {| int_of_str := fun s =>
       match s with
       | EmptyString => None
       | _ => digits s 0
       end;
     format_value := fun v =>
       match v with
       | PNone => "None"
       | PBool true => "True"
       | PBool false => "False"
       | PInt z => pretty z
       | PStr s => s
       | _ => "<object>"
       end |}.

(** A library whose size estimate is given; addresses, scripts and
    identifiers are readable tags. *)
Definition lib (size : Tx.t -> Z) : Lib :=
  {| address := fun k => "addr-" +:+ pretty (Key.private_int k);
     p2pkh := fun a => "p2pkh(" +:+ a +:+ ")";
     estimated_size := size;
     txid := fun tx =>
       "txid-" +:+ pretty (Tx.input_value tx) +:+ "-" +:+ pretty (Tx.output_value tx);
     hex := fun tx =>
       "raw-" +:+ pretty (Tx.input_value tx) +:+ "-" +:+ pretty (Tx.output_value tx) |}.

(** 10 bytes of framing, 148 per signed input, 34 per output. *)
Definition p2pkh_size (tx : Tx.t) : Z :=
  10 + 148 * Z.of_nat (length (Tx.inputs tx))
     + 34 * Z.of_nat (length (Tx.outputs tx)).

(** A network that answers every query of unspent outputs with [unspent]
    and every submission with [broadcast]. *)
Definition network (unspent broadcast : requests.outcome) : Network :=
  {| http_get := fun _ _ => unspent;
     http_post := fun _ _ _ => broadcast |}.

Definition ok (text : string) (body : option pyval) : requests.outcome :=
  requests.Responded
    {| requests.status_code := 200; requests.text := text;
       requests.json_body := body |}.

Definition status (code : Z) : requests.outcome :=
  requests.Responded
    {| requests.status_code := code; requests.text := EmptyString;
       requests.json_body := None |}.

(** One entry of WhatsOnChain's list of unspent outputs. *)
Definition unspent_entry (tx_hash : string) (tx_pos value : Z) : pyval :=
  PDict [("height", PInt 800000); ("tx_pos", PInt tx_pos);
         ("tx_hash", PStr tx_hash); ("value", PInt value)].

(** An in-memory store with the five methods the service calls; the
    three switches make the corresponding calls raise. *)
Module MemoryDb.
Record t : Type :=
  { issuer_url : gmap string string;
    issuer_anchor : gmap string string;
    vcsl : gmap string (string * string);
    fail_update : bool;
    fail_store : bool;
    fail_query : bool }.

Definition unavailable : exn := Exception "store unavailable".

Definition empty : t :=
  {| issuer_url := ∅; issuer_anchor := ∅; vcsl := ∅;
     fail_update := false; fail_store := false; fail_query := false |}.

Definition service : DbService t :=
  {| db_update_issuer_url := fun issuer_id new_url s =>
       if fail_update s then (Raise unavailable, s)
       else (Return tt,
             {| issuer_url := <[issuer_id := new_url]> (issuer_url s);
                issuer_anchor := issuer_anchor s; vcsl := vcsl s;
                fail_update := fail_update s; fail_store := fail_store s;
                fail_query := fail_query s |});
     db_store_issuer_anchor := fun issuer_id txid s =>
       if fail_store s then (Raise unavailable, s)
       else (Return tt,
             {| issuer_url := issuer_url s;
                issuer_anchor := <[issuer_id := txid]> (issuer_anchor s);
                vcsl := vcsl s;
                fail_update := fail_update s; fail_store := fail_store s;
                fail_query := fail_query s |});
     db_store_vcsl := fun id ipns txid s =>
       if fail_store s then (Raise unavailable, s)
       else (Return tt,
             {| issuer_url := issuer_url s; issuer_anchor := issuer_anchor s;
                vcsl := <[id := (ipns, txid)]> (vcsl s);
                fail_update := fail_update s; fail_store := fail_store s;
                fail_query := fail_query s |});
     db_get_issuer_url := fun issuer_id s =>
       if fail_query s then (Raise unavailable, s)
       else (Return (match issuer_url s !! issuer_id with
                     | Some u => PStr u
                     | None => PNone
                     end), s);
     db_get_vcsl := fun id s =>
       if fail_query s then (Raise unavailable, s)
       else (Return (match vcsl s !! id with
                     | Some (ipns, txid) => PTuple [PStr ipns; PStr txid]
                     | None => PNone
                     end), s) |}.
End MemoryDb.

(** The indexer's answer for an address holding one output of [value]
    satoshis. *)
Definition funded (value : Z) : requests.outcome :=
  ok EmptyString (Some (PList [unspent_entry "f4184fc596403b9d638783cf57adfe4c75c605f6356fbc91338530e9831e9e16" 0 value])).

(** An answer with one spendable entry among entries the service skips:
    a zero value, no transaction id, an index that is not an integer. *)
Definition mixed : requests.outcome :=
  ok EmptyString (Some (PList
    [ unspent_entry "aa" 1 0;
      PDict [("tx_pos", PInt 0); ("value", PInt 700)];
      unspent_entry "bb" 3 2000;
      PDict [("tx_pos", PStr "1"); ("tx_hash", PStr "cc"); ("value", PInt 900)] ])).

(** An answer with an entry whose value is [null]. *)
Definition null_value : requests.outcome :=
  ok EmptyString (Some (PList
    [ unspent_entry "bb" 3 2000;
      PDict [("tx_pos", PInt 0); ("tx_hash", PStr "dd"); ("value", PNone)] ])).

Definition master : Key.t := {| Key.private_int := 1; Key.network := "testnet" |}.

Definition service {S} (db : DbService S) : BsvService.t S :=
  {| BsvService.db_service := db;
     BsvService.network := "testnet";
     BsvService.wallet_key := master |}.

Definition start {S} (s : S) : world S := {| store := s; log := [] |}.

(** A service whose store does nothing, for the methods that do not use
    it. *)
Definition no_db : DbService unit :=
  {| db_update_issuer_url := fun _ _ s => (Return tt, s);
     db_store_issuer_anchor := fun _ _ s => (Return tt, s);
     db_store_vcsl := fun _ _ _ s => (Return tt, s);
     db_get_issuer_url := fun _ s => (Return PNone, s);
     db_get_vcsl := fun _ s => (Return PNone, s) |}.

Definition fetch (unspent : requests.outcome)
    : result (list BsvService.Utxo.t) * world unit :=
  @BsvService._fetch_utxos builtins (lib p2pkh_size)
    (network unspent (status 500)) unit (service no_db) "addr-1" (start tt).

Definition derived : Key.t := {| Key.private_int := 2; Key.network := "testnet" |}.

(** The builder run on a wallet holding one output of [value] satoshis,
    every transaction being estimated at [size] bytes. *)
Definition create (size value : Z) : result Tx.t * world MemoryDb.t :=
  @BsvService._create_anchor_tx builtins (lib (fun _ => size))
    (network (funded value) (status 500)) MemoryDb.t
    (service MemoryDb.service) derived (start MemoryDb.empty).

(** A network on which the wallet holds 2000 satoshis and every
    submission is accepted. *)
Definition online : Network := network (funded 2000) (ok "accepted" None).

(** A network on which every submission is rejected. *)
Definition rejecting : Network := network (funded 2000) (status 400).

(** A store whose writes of anchors and records fail. *)
Definition failing_store : MemoryDb.t :=
  {| MemoryDb.issuer_url := ∅; MemoryDb.issuer_anchor := ∅; MemoryDb.vcsl := ∅;
     MemoryDb.fail_update := false; MemoryDb.fail_store := true;
     MemoryDb.fail_query := false |}.

(** A PostgreSQL store that knows the issuer [alice] and the list [list-1],
    with its server up or down. *)
Definition postgres (up : bool) : PostgresDataStore.t :=
  {| PostgresDataStore.pool := true;
     PostgresDataStore.server_up := up;
     PostgresDataStore.issuer_urls := {[ "alice" := ("https://alice.example", None) ]};
     PostgresDataStore.vcsl_data := {[ "list-1" := ("k51qzi5uqu5d", "txid-1") ]} |}.

Definition on_postgres : BsvService.t PostgresDataStore.t :=
  service PostgresDataStore.as_db_service.

(** [changeOutput or 0] *)
Definition change_output_or_0 (tx : Tx.t) : Z :=
  match tl (Tx.outputs tx) with
  | o :: _ => TxOutput.sats o
  | [] => 0
  end.

End Simulation.

(** ** The entries of the indexer's answer, one at a time *)

Module Entries.
Import Py bsvlib BsvService.

Section Entries.
Context `{Builtins} `{Lib}.

(** The loop body raises on the entry: the entry has no [get], or its
    value does not convert to an integer. *)
Definition raises (utxo_data : pyval) : bool :=
  match Py.get utxo_data "value" (PInt 0) with
  | Return value =>
      match Py.int value with
      | Return _ => false
      | Raise _ => true
      end
  | Raise _ => true
  end.

(** What the loop body appends for the entry, if it appends. *)
Definition kept (address : string) (utxo_data : pyval) : option Utxo.t :=
  match Py.get utxo_data "value" (PInt 0),
        Py.get utxo_data "tx_hash" PNone,
        Py.get utxo_data "tx_pos" PNone with
  | Return value, Return txid, Return index =>
      match Py.int value with
      | Return sats =>
          if (0 <? sats) && truthy txid && isinstance_int index
          then Some {| Utxo.txid := txid; Utxo.index := index; Utxo.sats := sats;
                       Utxo.script_pubkey := p2pkh address |}
          else None
      | Raise _ => None
      end
  | _, _, _ => None
  end.

End Entries.
End Entries.

(** ** Well-formed references to an output

    The spec speaks of entries with a malformed transaction id or index.
    A transaction id is the hexadecimal form of a 32-byte hash, a string
    of 64 hexadecimal digits; an output index is a non-negative integer. *)

Module Outpoint.
Import Py.

Definition is_hex_digit (c : ascii) : bool :=
  let n := nat_of_ascii c in
  ((48 <=? n) && (n <=? 57) || (97 <=? n) && (n <=? 102)
   || (65 <=? n) && (n <=? 70))%nat.

Definition well_formed_txid (v : pyval) : bool :=
  match v with
  | PStr s =>
      Nat.eqb (String.length s) 64
      && forallb is_hex_digit (list_ascii_of_string s)
  | _ => false
  end.

Definition well_formed_index (v : pyval) : bool :=
  match v with
  | PInt z => 0 <=? z
  | _ => false
  end.

(** An answer of the indexer whose two entries have a positive value and
    a reference that is not well formed: an id that is a number with an
    index that is a boolean, an id that is not hexadecimal with a negative
    index. *)
Definition malformed : requests.outcome :=
  Simulation.ok EmptyString (Some (PList
    [ PDict [("tx_hash", PInt 7); ("tx_pos", PBool true); ("value", PInt 5)];
      PDict [("tx_hash", PStr "zz not hex"); ("tx_pos", PInt (-1));
             ("value", PInt 5)] ])).

End Outpoint.

(** * Properties *)

(** ** The hash functions *)

Section Digest.
Import Bytes Sha256.

Lemma to_Z_range (b : byte) : 0 <= to_Z b < 256.
Proof.
  unfold to_Z. pose proof (Byte.to_N_bounded b). lia.
Qed.

Lemma int_from_bytes_big_acc (bs : list byte) :
  forall acc, 0 <= acc ->
    0 <= fold_left (fun a b => a * 256 + to_Z b) bs acc
      < (acc + 1) * 256 ^ Z.of_nat (length bs).
Proof.
  induction bs as [|b bs IH]; intros acc Hacc.
  - cbn [fold_left length]. change (256 ^ Z.of_nat 0) with 1. lia.
  - cbn [fold_left length]. pose proof (to_Z_range b) as Hb.
    destruct (IH (acc * 256 + to_Z b) ltac:(lia)) as [Hlo Hhi].
    split; [exact Hlo|].
    rewrite Nat2Z.inj_succ, Z.pow_succ_r by lia.
    assert (0 < 256 ^ Z.of_nat (length bs)) by (apply Z.pow_pos_nonneg; lia).
    nia.
Qed.

Lemma int_from_bytes_big_range (bs : list byte) :
  0 <= int_from_bytes_big bs < 256 ^ Z.of_nat (length bs).
Proof.
  unfold int_from_bytes_big.
  pose proof (int_from_bytes_big_acc bs 0 ltac:(lia)). lia.
Qed.

Lemma int_to_bytes_big_length (n : nat) (z : Z) :
  length (int_to_bytes_big n z) = n.
Proof. induction n as [|n IH]; cbn; [reflexivity | now rewrite IH]. Qed.

Lemma round_length (st : list Z) (kw : Z * Z) :
  length (round st kw) = length st.
Proof.
  destruct st as [|a [|b [|c [|d [|e [|f [|g [|h [|i l]]]]]]]]]; reflexivity.
Qed.

Lemma fold_round_length (kws : list (Z * Z)) :
  forall st, length (fold_left round kws st) = length st.
Proof.
  induction kws as [|kw kws IH]; intros st; cbn [fold_left]; [reflexivity|].
  now rewrite IH, round_length.
Qed.

Lemma compress_length (h block : list Z) :
  length (compress h block) = length h.
Proof.
  unfold compress.
  rewrite length_map, length_combine, fold_round_length. lia.
Qed.

Lemma fold_compress_length (blocks : list (list Z)) :
  forall h, length (fold_left compress blocks h) = length h.
Proof.
  induction blocks as [|b blocks IH]; intros h; cbn [fold_left]; [reflexivity|].
  now rewrite IH, compress_length.
Qed.

Lemma flat_map_words_length (h : list Z) :
  length (flat_map (int_to_bytes_big 4) h) = (4 * length h)%nat.
Proof.
  induction h as [|x h IH]; [reflexivity|].
  cbn [flat_map]. rewrite length_app, int_to_bytes_big_length, IH.
  cbn [length]. lia.
Qed.

(** A SHA-256 digest has 32 bytes, whatever the message. *)
Lemma sha256_length (msg : list byte) : length (sha256 msg) = 32%nat.
Proof.
  unfold sha256. rewrite flat_map_words_length, fold_compress_length.
  reflexivity.
Qed.

Lemma hmac_sha256_length (key msg : list byte) :
  length (hmac_sha256 key msg) = 32%nat.
Proof. unfold hmac_sha256. apply sha256_length. Qed.

Lemma digest_scalar_range (key msg : list byte) :
  0 <= int_from_bytes_big (hmac_sha256 key msg) < 2 ^ 256.
Proof.
  pose proof (int_from_bytes_big_range (hmac_sha256 key msg)) as Hr.
  rewrite hmac_sha256_length in Hr.
  change (256 ^ Z.of_nat 32) with (2 ^ 256) in Hr. exact Hr.
Qed.

End Digest.

(** ** Key derivation *)

Section KeyDerivation.
Import Py Effects bsvlib BsvService.
Context `{Lib} {S : Type}.

(** C1.  For every master key and every context string, the derived key is
    computed from [digest = HMAC-SHA256(master private bytes, UTF-8 bytes of
    the context)]: the digest has 32 bytes and is read as a big-endian
    unsigned integer [s], the child scalar is [(master scalar + s) mod N],
    and the child key lives on the network of the service.  The result
    depends on the master key and on the context string only, so two calls
    with the same master key and context give the same scalar and the same
    address. *)
Theorem derive_brc42_key_correct (self : BsvService.t S) (key_id protocol : string) :
  let context := context_string protocol key_id in
  let digest :=
    Sha256.hmac_sha256 (Key.private_bytes (wallet_key self))
      (Bytes.encode_utf8 context) in
  let s := Bytes.int_from_bytes_big digest in
  let child := _derive_brc42_key self key_id protocol in
  length digest = 32%nat
  /\ 0 <= s < 2 ^ 256
  /\ Key.private_int child = (Key.private_int (wallet_key self) + s) mod N
  /\ 0 <= Key.private_int child < N
  /\ Key.network child = network self
  /\ forall (self' : BsvService.t S) (key_id' protocol' : string),
       wallet_key self' = wallet_key self ->
       network self' = network self ->
       context_string protocol' key_id' = context ->
       _derive_brc42_key self' key_id' protocol' = child
       /\ Key.private_int (_derive_brc42_key self' key_id' protocol')
          = Key.private_int child
       /\ address (_derive_brc42_key self' key_id' protocol') = address child.
Proof.
  intros context digest s child.
  split; [apply hmac_sha256_length|].
  split; [apply digest_scalar_range|].
  split; [reflexivity|].
  split; [apply Z.mod_pos_bound; reflexivity|].
  split; [reflexivity|].
  intros self' key_id' protocol' Hkey Hnet Hctx.
  assert (_derive_brc42_key self' key_id' protocol' = child) as ->.
  { unfold child, _derive_brc42_key. now rewrite Hkey, Hnet, Hctx. }
  repeat split.
Qed.

End KeyDerivation.

(** The same master key and the same context, split differently between
    protocol and key identifier, give the same address. *)
Lemma derive_brc42_key_correct_witness :
  let self := Simulation.service Simulation.MemoryDb.service in
  @bsvlib.address (Simulation.lib Simulation.p2pkh_size)
    (BsvService._derive_brc42_key self "abc" "quarkid-vcsl/vcsl")
  = @bsvlib.address (Simulation.lib Simulation.p2pkh_size)
      (BsvService._derive_brc42_key self "vcsl/abc" BsvService.VCSL_PROTOCOL_ID).
Proof.
  intros self.
  destruct (@derive_brc42_key_correct (Simulation.lib Simulation.p2pkh_size) _
              self "vcsl/abc" BsvService.VCSL_PROTOCOL_ID)
    as (_ & _ & _ & _ & _ & Hsame).
  apply (Hsame self "abc" "quarkid-vcsl/vcsl"); reflexivity.
Defined.

(** The scalar [hmac] and [hashlib] give for the master scalar 1 and the
    context [quarkid-vcsl/vcsl/abc]. *)
Example derive_brc42_key_vcsl_abc :
  bsvlib.Key.private_int
    (BsvService._derive_brc42_key
       (Simulation.service Simulation.MemoryDb.service) "vcsl/abc"
       BsvService.VCSL_PROTOCOL_ID)
  = 34214534596861395120588356847368860732153350184274791211678393444544298005821.
Proof. vm_compute. reflexivity. Qed.
Example sha256_abc :
  Bytes.hex (Sha256.sha256 (Bytes.encode_utf8 "abc")) =
  "ba7816bf8f01cfea414140de5dae2223b00361a396177a9cb410ff61f20015ad"%string.
Proof. vm_compute. reflexivity. Qed.

Example hmac_rfc4231_2 :
  Bytes.hex (Sha256.hmac_sha256 (Bytes.encode_utf8 "Jefe")
         (Bytes.encode_utf8 "what do ya want for nothing?")) =
  "5bdcc146bf60754e6a042426089575c75a003f089d2739839dec58b964ec3843"%string.
Proof. vm_compute. reflexivity. Qed.

Example hmac_rfc4231_6 :
  Bytes.hex (Sha256.hmac_sha256 (repeat xaa 131)
         (Bytes.encode_utf8 "Test Using Larger Than Block-Size Key - Hash Key First")) =
  "60e431591ee0b67f0d8a26aacbf5b77f8e0bc6213728c5140546040f0ee37f54"%string.
Proof. vm_compute. reflexivity. Qed.

(** ** How the methods run *)

Ltac unfold_M :=
  unfold mbind, mret, Effects.M_bind, Effects.M_ret, Effects.bind, Effects.ret,
    Effects.try_except, Effects.lift, Effects.raise, Effects.requests_get,
    Effects.requests_post, Effects.invoke in *.

Section Runs.
Import Py Effects bsvlib BsvService.
Context `{Builtins} `{Lib} `{Network} {S : Type}.
Implicit Types (self : BsvService.t S) (w : world S).

(** [_fetch_utxos] always returns: it makes one query, which it logs, and
    leaves the store alone. *)
Lemma fetch_utxos_run self address w :
  let o := http_get (log w) (unspent_url self address) in
  _fetch_utxos self address w
  = (Return (fetched self address o),
     record (HttpGet (unspent_url self address) o) w).
Proof.
  intros o. unfold _fetch_utxos, fetched, parse_unspent. unfold_M.
  fold o. destruct o as [m|response]; [reflexivity|].
  destruct (requests.raise_for_status _ response) as [[]|e]; cbn;
    [|destruct e; reflexivity].
  destruct (requests.json response) as [data|e]; cbn;
    [|destruct e; reflexivity].
  destruct (PyIter.iter data) as [items|e]; cbn;
    [|destruct e; reflexivity].
  destruct (fetch_loop address items []) as [utxos|e]; cbn;
    [reflexivity|destruct e; reflexivity].
Qed.

Lemma create_anchor_tx_run self derived_key w :
  let url := unspent_url self (address (wallet_key self)) in
  let o := http_get (log w) url in
  _create_anchor_tx self derived_key w
  = (build_anchor_tx self derived_key (fetched self (address (wallet_key self)) o),
     record (HttpGet url o) w).
Proof.
  intros url o. unfold _create_anchor_tx.
  unfold mbind, M_bind, bind. rewrite fetch_utxos_run. fold url o.
  unfold lift. now destruct (build_anchor_tx _ _ _).
Qed.

Lemma broadcast_tx_run self tx w :
  let o := http_post (log w) (broadcast_url self) (hex tx) in
  _broadcast_tx self tx w
  = (broadcast_result self tx o,
     record (HttpPost (broadcast_url self) (hex tx) o) w).
Proof.
  intros o. unfold _broadcast_tx, broadcast_result. unfold_M.
  fold o. destruct o as [m|response]; [reflexivity|].
  destruct (requests.raise_for_status _ response) as [[]|e] eqn:Hst; cbn.
  - destruct (String.eqb _ (txid tx)) eqn:Heq; [|reflexivity].
    apply String.eqb_eq in Heq. now rewrite Heq.
  - unfold requests.raise_for_status in Hst.
    destruct (_ && _); [|discriminate]. now inversion Hst.
Qed.

Lemma anchor_run self key_id w :
  let derived_key := _derive_brc42_key self key_id VCSL_PROTOCOL_ID in
  let url := unspent_url self (address (wallet_key self)) in
  let o := http_get (log w) url in
  let w1 := record (HttpGet url o) w in
  anchor self key_id w
  = match build_anchor_tx self derived_key
            (fetched self (address (wallet_key self)) o) with
    | Raise e => (Raise e, w1)
    | Return tx =>
        let o' := http_post (log w1) (broadcast_url self) (hex tx) in
        (broadcast_result self tx o',
         record (HttpPost (broadcast_url self) (hex tx) o') w1)
    end.
Proof.
  intros derived_key url o w1. unfold anchor. fold derived_key.
  unfold mbind, M_bind, bind. rewrite create_anchor_tx_run. fold url o w1.
  destruct (build_anchor_tx _ _ _) as [tx|e]; [|reflexivity].
  now rewrite broadcast_tx_run.
Qed.

(** The anchoring steps never touch the store, and what they add to the
    log is network traffic only. *)
Lemma anchor_effects self key_id w r w' :
  anchor self key_id w = (r, w') ->
  store w' = store w
  /\ exists new, log w' = log w ++ new
       /\ (forall c, ~ In (DbCall c) new)
       /\ (forall txid, r = Return txid ->
             exists url tx_hex o,
               In (HttpPost url tx_hex o) new /\ accepted o = true).
Proof.
  rewrite anchor_run. cbv zeta.
  set (o := http_get _ _).
  set (w1 := record _ w).
  destruct (build_anchor_tx _ _ _) as [tx|e].
  - set (o' := http_post _ _ _). intros [= <- <-]. split; [reflexivity|].
    exists [HttpGet (unspent_url self (address (wallet_key self))) o;
            HttpPost (broadcast_url self) (hex tx) o'].
    split; [cbn; now rewrite <- app_assoc|].
    split.
    + intros c [Hc|[Hc|[]]]; discriminate.
    + intros txid Hok. exists (broadcast_url self), (hex tx), o'.
      split; [cbn; auto|].
      unfold broadcast_result in Hok. destruct o' as [m|response]; [discriminate|].
      unfold requests.raise_for_status in Hok. cbn.
      destruct (_ && _); [discriminate|reflexivity].
  - intros [= <- <-]. split; [reflexivity|].
    exists [HttpGet (unspent_url self (address (wallet_key self))) o].
    split; [reflexivity|]. split.
    + intros c [Hc|[]]; discriminate.
    + intros txid Hok; discriminate.
Qed.

End Runs.

(** ** The anchor transaction builder *)

Section Builder.
Import Py Effects bsvlib BsvService.
Context `{Builtins} `{Lib} `{Network} {S : Type}.
Implicit Types (self : BsvService.t S) (w : world S).

Lemma float_of_int_exact (z : Z) :
  - 2 ^ 53 < z < 2 ^ 53 -> float_of_int z = z.
Proof.
  intros Hz. unfold float_of_int.
  assert (Hlog : Z.log2 (Z.abs z) < 53).
  { destruct (Z.eq_dec (Z.abs z) 0) as [->|Hnz]; [reflexivity|].
    apply Z.log2_lt_pow2; lia. }
  destruct (Z.log2 (Z.abs z) + 1 - 53 <=? 0) eqn:Hshift; [reflexivity|].
  apply Z.leb_gt in Hshift. lia.
Qed.

Lemma calculate_fee_floor (size : Z) :
  - 2 ^ 53 < size < 2 ^ 53 ->
  calculate_fee size = Z.max 1 (Qfloor (inject_Z size * fee_rate)).
Proof.
  intros Hsize.
  unfold calculate_fee. rewrite (float_of_int_exact size Hsize).
  unfold Qtruncate, Qfloor, fee_rate. cbn.
  change (Z.pos (1 * 2)) with 2. rewrite Z.mul_1_r.
  destruct (Z_lt_le_dec size 0) as [Hneg|Hpos].
  - assert (size ÷ 2 <= 0) by (apply Z.quot_le_upper_bound; lia).
    assert (size / 2 <= 0) by (apply Z.div_le_upper_bound; lia).
    lia.
  - now rewrite Z.quot_div_nonneg by lia.
Qed.

Lemma calculate_fee_min (size : Z) : 1 <= calculate_fee size.
Proof. unfold calculate_fee. apply Z.le_max_l. Qed.

Lemma outputs_pop_add_output (t : Tx.t) (o : TxOutput.t) :
  Tx.outputs_pop (Tx.add_output t o) = t.
Proof.
  destruct t as [n i os]. unfold Tx.outputs_pop, Tx.add_output. cbn.
  now rewrite removelast_last.
Qed.

(** The builder on a sequence that starts with [utxo]: the one failure is
    the negative change, and the transaction is the funded one, with the
    change output when the change reaches the dust amount, then signed. *)
Lemma build_anchor_tx_cons self derived_key utxo rest :
  build_anchor_tx self derived_key (utxo :: rest)
  = if change_of self derived_key utxo <? 0
    then Raise (insufficient_funds utxo (fee_of self derived_key utxo))
    else Return
           (Tx.sign
              (if dust_amount <=? change_of self derived_key utxo
               then Tx.add_output (funded_tx self derived_key utxo)
                      {| TxOutput.sats := change_of self derived_key utxo;
                         TxOutput.script_pubkey := p2pkh (address (wallet_key self)) |}
               else funded_tx self derived_key utxo)
              (wallet_key self)).
Proof.
  unfold build_anchor_tx, change_of, fee_of. cbv zeta.
  now rewrite outputs_pop_add_output.
Qed.

Lemma create_from_fetch self derived_key w utxos w1 :
  _fetch_utxos self (address (wallet_key self)) w = (Return utxos, w1) ->
  _create_anchor_tx self derived_key w = (build_anchor_tx self derived_key utxos, w1).
Proof.
  intros Hf. unfold _create_anchor_tx, mbind, M_bind, bind, lift.
  now rewrite Hf.
Qed.

(** A successful build selected the first output of the sequence
    [_fetch_utxos] returned. *)
Lemma create_anchor_tx_selected self derived_key w tx w' :
  _create_anchor_tx self derived_key w = (Return tx, w') ->
  exists utxo rest,
    _fetch_utxos self (address (wallet_key self)) w = (Return (utxo :: rest), w')
    /\ build_anchor_tx self derived_key (utxo :: rest) = Return tx.
Proof.
  intros Hc.
  pose proof (fetch_utxos_run self (address (wallet_key self)) w) as Hf.
  cbv zeta in Hf. rewrite (create_from_fetch _ _ _ _ _ Hf) in Hc.
  injection Hc as Hb Hw. rewrite Hw in Hf.
  destruct (fetched _ _ _) as [|utxo rest]; [discriminate|].
  now exists utxo, rest.
Qed.

Lemma signed_input_value (t : Tx.t) (k : Key.t) :
  Tx.input_value (Tx.sign t k) = Tx.input_value t.
Proof.
  unfold Tx.input_value, Tx.sign. cbn. now rewrite map_map.
Qed.

End Builder.

Section BuilderClaims.
Import Py Effects bsvlib BsvService.
Context `{Builtins} `{Lib} `{Network} {S : Type}.
Implicit Types (self : BsvService.t S) (w : world S).

Ltac built Hc utxo rest Hf Hneg :=
  destruct (create_anchor_tx_selected _ _ _ _ _ Hc) as (utxo & rest & Hf & Hb);
  rewrite build_anchor_tx_cons in Hb;
  destruct (change_of _ _ utxo <? 0) eqn:Hneg; [discriminate Hb|];
  apply Z.ltb_ge in Hneg;
  injection Hb as <-.

(** C2 (amended).  For every transaction the builder returns, the fee is
    [max(1, floor(estimatedSizeBytes * 0.5))], the product being rounded
    down and not up, for every estimated size below 2^53 bytes; the size
    is the one estimated with the placeholder change output in place.  The
    fee so computed is at least 1 and is the fee of the transaction: the
    builder returns exactly when the selected output covers dust plus that
    fee, the change output, when there is one, carries the value less dust
    and that fee, so that the outputs leave exactly that fee to the
    network, and the error raised otherwise names dust plus that fee.  A
    size of 225 bytes gives a fee of 112. *)
Theorem anchor_fee_rounds_down self derived_key w :
  let size_of := fun utxo =>
    estimated_size
      (Tx.add_output (funded_tx self derived_key utxo)
         {| TxOutput.sats := temp_change_sats;
            TxOutput.script_pubkey := p2pkh (address (wallet_key self)) |}) in
  let fee_at := fun size => Z.max 1 (Qfloor (inject_Z size * fee_rate)) in
  (forall tx w',
     _create_anchor_tx self derived_key w = (Return tx, w') ->
     exists utxo rest,
       _fetch_utxos self (address (wallet_key self)) w = (Return (utxo :: rest), w')
       /\ (0 <= size_of utxo < 2 ^ 53 ->
           let fee := fee_at (size_of utxo) in
           let change := Utxo.sats utxo - 546 - fee in
           1 <= fee
           /\ 0 <= change
           /\ Tx.input_value tx = Utxo.sats utxo
           /\ Tx.outputs tx
              = {| TxOutput.sats := 546;
                   TxOutput.script_pubkey := p2pkh (address derived_key) |}
                :: (if 546 <=? change
                    then [{| TxOutput.sats := change;
                             TxOutput.script_pubkey :=
                               p2pkh (address (wallet_key self)) |}]
                    else [])
           /\ fee <= Tx.input_value tx - Tx.output_value tx
           /\ (546 <= change -> Tx.input_value tx - Tx.output_value tx = fee)
           /\ (size_of utxo = 225 -> fee = 112)))
  /\ (forall utxo rest w1,
        _fetch_utxos self (address (wallet_key self)) w = (Return (utxo :: rest), w1) ->
        0 <= size_of utxo < 2 ^ 53 ->
        let fee := fee_at (size_of utxo) in
        ((exists tx, fst (_create_anchor_tx self derived_key w) = Return tx)
         <-> 546 + fee <= Utxo.sats utxo)
        /\ (Utxo.sats utxo < 546 + fee ->
            fst (_create_anchor_tx self derived_key w)
            = Raise (insufficient_funds utxo fee))).
Proof.
  intros size_of fee_at.
  assert (Hfee : forall utxo,
             0 <= size_of utxo < 2 ^ 53 ->
             fee_of self derived_key utxo = fee_at (size_of utxo)).
  { intros utxo Hsize. unfold fee_of, estimate_with_placeholder.
    apply calculate_fee_floor. fold (size_of utxo). lia. }
  split.
  - intros tx w' Hc. built Hc utxo rest Hf Hneg.
    exists utxo, rest. split; [exact Hf|]. intros Hsize. cbv zeta.
    unfold change_of in *. change dust_amount with 546 in *.
    rewrite (Hfee utxo Hsize) in *.
    set (fee := fee_at (size_of utxo)) in *.
    assert (Hmin : 1 <= fee) by apply Z.le_max_l.
    rewrite signed_input_value.
    split; [exact Hmin|]. split; [exact Hneg|].
    destruct (546 <=? Utxo.sats utxo - 546 - fee) eqn:Hd;
      [apply Z.leb_le in Hd|apply Z.leb_gt in Hd];
      unfold Tx.input_value, Tx.output_value, Tx.sign, Tx.add_output, funded_tx,
        Tx.add_input, Tx.new, dust_amount; cbn.
    + split; [lia|]. split; [reflexivity|]. split; [lia|]. split; [lia|].
      unfold fee. intros ->. reflexivity.
    + split; [lia|]. split; [reflexivity|]. split; [lia|]. split; [lia|].
      unfold fee. intros ->. reflexivity.
  - intros utxo rest w1 Hf Hsize. cbv zeta.
    rewrite (create_from_fetch _ _ _ _ _ Hf). cbn [fst].
    rewrite build_anchor_tx_cons. unfold change_of.
    change dust_amount with 546. rewrite (Hfee utxo Hsize).
    set (fee := fee_at (size_of utxo)).
    destruct (Utxo.sats utxo - 546 - fee <? 0) eqn:Hneg;
      [apply Z.ltb_lt in Hneg|apply Z.ltb_ge in Hneg].
    + split; [|reflexivity].
      split; [intros [tx Htx]; discriminate|lia].
    + split; [|lia].
      split; [lia|intros _; eexists; reflexivity].
Qed.

(** C3.  With [utxo] the first of the supplied outputs, the builder
    computes [change = value - dust - fee] and fails exactly when the
    change is negative, with the insufficient-funds error; a value of
    [dust + fee - 1] fails, a value of [dust + fee] gives a transaction
    with the dust output alone. *)
Theorem insufficient_funds_boundary self derived_key w utxo rest w1 :
  _fetch_utxos self (address (wallet_key self)) w = (Return (utxo :: rest), w1) ->
  let fee := fee_of self derived_key utxo in
  let change := Utxo.sats utxo - dust_amount - fee in
  let outcome := fst (_create_anchor_tx self derived_key w) in
  (change < 0 <-> outcome = Raise (insufficient_funds utxo fee))
  /\ (change < 0 <-> exists e, outcome = Raise e)
  /\ String.prefix "Insufficient funds" (str (insufficient_funds utxo fee)) = true
  /\ (Utxo.sats utxo = dust_amount + fee - 1 ->
      outcome = Raise (insufficient_funds utxo fee))
  /\ (Utxo.sats utxo = dust_amount + fee ->
      exists tx,
        outcome = Return tx
        /\ Tx.outputs tx
           = [{| TxOutput.sats := dust_amount;
                 TxOutput.script_pubkey := p2pkh (address derived_key) |}]).
Proof.
  intros Hf fee change outcome.
  assert (outcome
          = if change <? 0 then Raise (insufficient_funds utxo fee)
            else Return
                   (Tx.sign
                      (if dust_amount <=? change
                       then Tx.add_output (funded_tx self derived_key utxo)
                              {| TxOutput.sats := change;
                                 TxOutput.script_pubkey :=
                                   p2pkh (address (wallet_key self)) |}
                       else funded_tx self derived_key utxo)
                      (wallet_key self))) as Hout.
  { unfold outcome. rewrite (create_from_fetch _ _ _ _ _ Hf).
    cbn [fst]. apply build_anchor_tx_cons. }
  rewrite Hout. clear Hout.
  assert (Hdust : dust_amount = 546) by reflexivity.
  split.
  { split.
    - intros Hlt. apply Z.ltb_lt in Hlt. now rewrite Hlt.
    - destruct (change <? 0) eqn:Hc; [intros _; now apply Z.ltb_lt|discriminate]. }
  split.
  { split.
    - intros Hlt. apply Z.ltb_lt in Hlt. rewrite Hlt. eauto.
    - destruct (change <? 0) eqn:Hc; [intros _; now apply Z.ltb_lt|].
      intros [e He]. discriminate. }
  split; [reflexivity|].
  split.
  - intros Hv. assert (Hlt : (change <? 0) = true) by (apply Z.ltb_lt; lia).
    now rewrite Hlt.
  - intros Hv. assert (Hz : change = 0) by lia. rewrite Hz. cbn.
    eexists. split; reflexivity.
Qed.

(** C4.  Every transaction the builder returns spends one input, the
    first of the supplied outputs, signed with the wallet key; its first
    output pays the dust amount of 546 satoshis to the derived address;
    and it has one more output, paying [change] to the wallet address,
    exactly when [change >= 546]. *)
Theorem anchor_tx_shape self derived_key w tx w' :
  _create_anchor_tx self derived_key w = (Return tx, w') ->
  exists utxo rest,
    _fetch_utxos self (address (wallet_key self)) w = (Return (utxo :: rest), w')
    /\ let change := change_of self derived_key utxo in
       let dust_output :=
         {| TxOutput.sats := 546;
            TxOutput.script_pubkey := p2pkh (address derived_key) |} in
       let change_output :=
         {| TxOutput.sats := change;
            TxOutput.script_pubkey := p2pkh (address (wallet_key self)) |} in
       Tx.inputs tx
       = [{| TxInput.txid := Utxo.txid utxo; TxInput.index := Utxo.index utxo;
             TxInput.sats := Utxo.sats utxo;
             TxInput.script_pubkey := Utxo.script_pubkey utxo;
             TxInput.signed_by := Some (wallet_key self) |}]
       /\ 0 <= change
       /\ Tx.outputs tx
          = dust_output :: (if 546 <=? change then [change_output] else [])
       /\ (In change_output (tl (Tx.outputs tx)) <-> 546 <= change)
       /\ (change < 546 -> Tx.outputs tx = [dust_output]).
Proof.
  intros Hc. built Hc utxo rest Hf Hneg.
  exists utxo, rest. split; [exact Hf|]. cbv zeta.
  change dust_amount with 546.
  split; [destruct (546 <=? _); reflexivity|].
  split; [exact Hneg|].
  destruct (546 <=? change_of self derived_key utxo) eqn:Hd; cbn.
  - apply Z.leb_le in Hd.
    split; [reflexivity|]. split; [split; [intros _; exact Hd|auto]|]. lia.
  - apply Z.leb_gt in Hd.
    split; [reflexivity|]. split; [split; [intros []|lia]|]. reflexivity.
Qed.

(** C5 (amended).  For every transaction the builder returns,
    [inputValue = dustOutput + fee + change] with [change >= 0]; the change
    is paid back by the change output when it is at least the dust amount,
    and then [inputValue = dustOutput + fee + changeOutput]; when
    [0 <= change < 546] there is no change output and the whole change goes
    to the network on top of the fee. *)
Theorem anchor_tx_value self derived_key w tx w' :
  _create_anchor_tx self derived_key w = (Return tx, w') ->
  exists utxo rest,
    _fetch_utxos self (address (wallet_key self)) w = (Return (utxo :: rest), w')
    /\ let fee := fee_of self derived_key utxo in
       let change := Utxo.sats utxo - dust_amount - fee in
       Tx.input_value tx = Utxo.sats utxo
       /\ 0 <= change
       /\ Tx.input_value tx = dust_amount + fee + change
       /\ (dust_amount <= change ->
           Tx.output_value tx = dust_amount + change
           /\ Tx.input_value tx = Tx.output_value tx + fee)
       /\ (change < dust_amount ->
           Tx.outputs tx
           = [{| TxOutput.sats := dust_amount;
                 TxOutput.script_pubkey := p2pkh (address derived_key) |}]
           /\ Tx.input_value tx - Tx.output_value tx - fee = change).
Proof.
  intros Hc. built Hc utxo rest Hf Hneg.
  exists utxo, rest. split; [exact Hf|]. cbv zeta.
  rewrite signed_input_value. unfold change_of in *.
  set (fee := fee_of self derived_key utxo) in *.
  assert (Hin : forall t' : Tx.t,
             Tx.inputs t' = Tx.inputs (funded_tx self derived_key utxo) ->
             Tx.input_value t' = Utxo.sats utxo).
  { intros t' Ht. unfold Tx.input_value. rewrite Ht. cbn. lia. }
  assert (Hiv : Tx.input_value
                  (if dust_amount <=? Utxo.sats utxo - dust_amount - fee
                   then Tx.add_output (funded_tx self derived_key utxo)
                          {| TxOutput.sats := Utxo.sats utxo - dust_amount - fee;
                             TxOutput.script_pubkey :=
                               p2pkh (address (wallet_key self)) |}
                   else funded_tx self derived_key utxo)
                = Utxo.sats utxo).
  { apply Hin. now destruct (dust_amount <=? _). }
  rewrite Hiv.
  split; [reflexivity|]. split; [exact Hneg|]. split; [lia|].
  split.
  - intros Hd. apply Z.leb_le in Hd. rewrite Hd.
    unfold Tx.output_value. cbn. lia.
  - intros Hd. apply Z.leb_gt in Hd. rewrite Hd.
    split; [reflexivity|]. unfold Tx.output_value. cbn. lia.
Qed.

End BuilderClaims.

(** ** The builder on the test doubles *)

Section BuilderExamples.
Import Py Effects bsvlib BsvService.

(** The end-to-end example: 2000 satoshis, 225 bytes.  The fee is 112 and
    the change 1342. *)
Example create_2000 :
  exists tx w',
    Simulation.create 225 2000 = (Return tx, w')
    /\ map TxOutput.sats (Tx.outputs tx) = [546; 1342]
    /\ length (Tx.inputs tx) = 1%nat.
Proof. eexists _, _. split; [vm_compute; reflexivity|]. split; reflexivity. Qed.

(** 600 satoshis do not cover dust and fee. *)
Example create_600 :
  exists e, fst (Simulation.create 225 600) = Raise e
            /\ String.prefix "Insufficient funds" (str e) = true.
Proof. eexists. split; vm_compute; reflexivity. Qed.

(** C2, counterexample: at 0.5 satoshi per byte and 225 bytes the fee is
    112, which is neither [max(1, ceil(225 * 0.5))] nor 113; the
    transaction built from 2000 satoshis leaves 112 to the network. *)
Lemma fee_at_225_bytes_is_not_113 :
  calculate_fee 225 = 112
  /\ calculate_fee 225 <> Z.max 1 (Qceiling (inject_Z 225 * fee_rate))
  /\ calculate_fee 225 <> 113
  /\ exists tx w',
       Simulation.create 225 2000 = (Return tx, w')
       /\ Tx.input_value tx - Tx.output_value tx = 112.
Proof.
  split; [reflexivity|].
  split; [vm_compute; discriminate|].
  split; [vm_compute; discriminate|].
  eexists _, _. split; [vm_compute; reflexivity|]. reflexivity.
Qed.

Lemma anchor_fee_rounds_down_witness :
  exists tx w',
    Simulation.create 225 2000 = (Return tx, w')
    /\ map TxOutput.sats (Tx.outputs tx) = [546; 1342]
    /\ Tx.input_value tx - Tx.output_value tx = 112.
Proof.
  eexists _, _. split; [vm_compute; reflexivity|].
  destruct (@anchor_fee_rounds_down Simulation.builtins
              (Simulation.lib (fun _ => 225))
              (Simulation.network (Simulation.funded 2000) (Simulation.status 500))
              _ (Simulation.service Simulation.MemoryDb.service)
              Simulation.derived
              (Simulation.start Simulation.MemoryDb.empty))
    as (Hbuilt & _).
  edestruct Hbuilt as (utxo & rest & Hf & Hfee); [vm_compute; reflexivity|].
  vm_compute in Hf. injection Hf as <- <-.
  destruct Hfee as (_ & _ & _ & Hout & _ & Hexact & _); [cbn; lia|].
  split; [rewrite Hout; reflexivity|].
  apply Hexact. vm_compute. discriminate.
Defined.

(** 657 = 546 + 112 - 1 satoshis: one short of dust plus fee. *)
Lemma insufficient_funds_boundary_witness :
  exists e,
    fst (Simulation.create 225 657) = Raise e
    /\ String.prefix "Insufficient funds" (str e) = true.
Proof.
  edestruct (@insufficient_funds_boundary Simulation.builtins
               (Simulation.lib (fun _ => 225))
               (Simulation.network (Simulation.funded 657) (Simulation.status 500))
               _ (Simulation.service Simulation.MemoryDb.service)
               Simulation.derived
               (Simulation.start Simulation.MemoryDb.empty))
    as (_ & _ & Hmsg & Hshort & _);
    [vm_compute; reflexivity|].
  eexists. split; [apply Hshort; vm_compute; reflexivity|exact Hmsg].
Defined.

(** 658 = 546 + 112 satoshis: the transaction has the dust output alone. *)
Example create_658 :
  exists tx w',
    Simulation.create 225 658 = (Return tx, w')
    /\ map TxOutput.sats (Tx.outputs tx) = [546].
Proof. eexists _, _. split; [vm_compute; reflexivity|]. reflexivity. Qed.

Lemma anchor_tx_shape_witness :
  exists tx w',
    Simulation.create 225 2000 = (Return tx, w')
    /\ length (Tx.inputs tx) = 1%nat
    /\ map TxOutput.sats (Tx.outputs tx) = [546; 1342].
Proof.
  eexists _, _. split; [vm_compute; reflexivity|].
  edestruct (@anchor_tx_shape Simulation.builtins
               (Simulation.lib (fun _ => 225))
               (Simulation.network (Simulation.funded 2000) (Simulation.status 500))
               _ (Simulation.service Simulation.MemoryDb.service)
               Simulation.derived
               (Simulation.start Simulation.MemoryDb.empty))
    as (utxo & rest & Hf & Hin & Hpos & Hout & _);
    [vm_compute; reflexivity|].
  vm_compute in Hf. injection Hf as <- <-.
  rewrite Hin, Hout. split; reflexivity.
Defined.

(** C5, counterexample: 1000 satoshis, 225 bytes.  The fee is 112 and the
    change of 342 is below the dust amount: the transaction has the dust
    output alone, and 1000 is not 546 + 112 + 0. *)
Lemma sub_dust_change_breaks_conservation :
  exists tx w',
    Simulation.create 225 1000 = (Return tx, w')
    /\ map TxOutput.sats (Tx.outputs tx) = [546]
    /\ Simulation.change_output_or_0 tx = 0
    /\ calculate_fee 225 = 112
    /\ Tx.input_value tx = 1000
    /\ Tx.input_value tx <> 546 + 112 + Simulation.change_output_or_0 tx.
Proof.
  eexists _, _. split; [vm_compute; reflexivity|].
  repeat split; vm_compute; discriminate.
Qed.

Lemma anchor_tx_value_witness :
  exists tx w',
    Simulation.create 225 1000 = (Return tx, w')
    /\ Tx.input_value tx - Tx.output_value tx - 112 = 342.
Proof.
  eexists _, _. split; [vm_compute; reflexivity|].
  edestruct (@anchor_tx_value Simulation.builtins
               (Simulation.lib (fun _ => 225))
               (Simulation.network (Simulation.funded 1000) (Simulation.status 500))
               _ (Simulation.service Simulation.MemoryDb.service)
               Simulation.derived
               (Simulation.start Simulation.MemoryDb.empty))
    as (utxo & rest & Hf & Hin & Hpos & Hsum & Hbig & Hsmall);
    [vm_compute; reflexivity|].
  vm_compute in Hf. injection Hf as <- <-.
  destruct Hsmall as [_ Hgap]; [reflexivity|]. exact Hgap.
Defined.

End BuilderExamples.

(** ** The UTXO source *)

Section UtxoSource.
Import Py Effects bsvlib BsvService.
Context `{Builtins} `{Lib} `{Network} {S : Type}.
Implicit Types (self : BsvService.t S) (w : world S).

(** Whatever the loop returns was there at the start or was appended for
    an entry that passed the test. *)
Lemma fetch_loop_sound (address : string) (items : list pyval) :
  forall (acc out : list Utxo.t),
    fetch_loop address items acc = Return out ->
    forall u, In u out ->
      In u acc
      \/ exists entry,
           In entry items
           /\ appended_for address entry u
           /\ 0 < Utxo.sats u
           /\ truthy (Utxo.txid u) = true
           /\ isinstance_int (Utxo.index u) = true.
Proof.
  induction items as [|entry items IH]; intros acc out Hloop u Hu.
  - cbn in Hloop. injection Hloop as <-. now left.
  - cbn [fetch_loop] in Hloop. unfold mbind, result_bind in Hloop.
    destruct (Py.get entry "value" (PInt 0)) as [value|] eqn:Hvalue; [|discriminate].
    destruct (Py.int value) as [sats|] eqn:Hsats; [|discriminate].
    destruct (Py.get entry "tx_hash" PNone) as [txid|] eqn:Htxid; [|discriminate].
    destruct (Py.get entry "tx_pos" PNone) as [index|] eqn:Hindex; [|discriminate].
    destruct ((0 <? sats) && truthy txid && isinstance_int index) eqn:Htest.
    + destruct (IH _ _ Hloop u Hu) as [Hacc|(e & He & Hrest)].
      * apply in_app_or in Hacc. destruct Hacc as [Hacc|[<-|[]]]; [now left|].
        right. exists entry. split; [now left|].
        apply andb_prop in Htest. destruct Htest as [Htest Hint].
        apply andb_prop in Htest. destruct Htest as [Hpos Htruthy].
        apply Z.ltb_lt in Hpos. cbn.
        split; [exists value; auto|auto].
      * right. exists e. split; [now right|exact Hrest].
    + destruct (IH _ _ Hloop u Hu) as [Hacc|(e & He & Hrest)]; [now left|].
      right. exists e. split; [now right|exact Hrest].
Qed.

(** Conversely, when the loop runs to its end, it keeps what it had and
    every entry that passes the test. *)
Lemma fetch_loop_complete (address : string) (items : list pyval) :
  forall (acc out : list Utxo.t),
    fetch_loop address items acc = Return out ->
    (forall u, In u acc -> In u out)
    /\ forall entry u,
         In entry items ->
         appended_for address entry u ->
         0 < Utxo.sats u ->
         truthy (Utxo.txid u) = true ->
         isinstance_int (Utxo.index u) = true ->
         In u out.
Proof.
  induction items as [|entry items IH]; intros acc out Hloop.
  - cbn in Hloop. injection Hloop as <-. split; [auto|intros e u []].
  - cbn [fetch_loop] in Hloop. unfold mbind, result_bind in Hloop.
    destruct (Py.get entry "value" (PInt 0)) as [value|] eqn:Hvalue; [|discriminate].
    destruct (Py.int value) as [sats|] eqn:Hsats; [|discriminate].
    destruct (Py.get entry "tx_hash" PNone) as [txid|] eqn:Htxid; [|discriminate].
    destruct (Py.get entry "tx_pos" PNone) as [index|] eqn:Hindex; [|discriminate].
    assert (Hhead : forall u,
               appended_for address entry u ->
               u = {| Utxo.txid := txid; Utxo.index := index; Utxo.sats := sats;
                      Utxo.script_pubkey := p2pkh address |}).
    { intros [t i s p] (v & Hv & Hs & Ht & Hi & Hp). cbn in *.
      rewrite Hvalue in Hv. injection Hv as <-.
      rewrite Hsats in Hs. injection Hs as <-.
      rewrite Htxid in Ht. injection Ht as <-.
      rewrite Hindex in Hi. injection Hi as <-.
      now subst p. }
    destruct ((0 <? sats) && truthy txid && isinstance_int index) eqn:Htest;
      destruct (IH _ _ Hloop) as [Hkeep Hrest]; split.
    + intros u Hu. apply Hkeep, in_or_app. now left.
    + intros e u [<-|He] Happ Hpos Ht Hi; [|eauto].
      rewrite (Hhead u Happ). apply Hkeep, in_or_app. right. now left.
    + exact Hkeep.
    + intros e u [<-|He] Happ Hpos Ht Hi; [|eauto].
      exfalso. rewrite (Hhead u Happ) in Hpos, Ht, Hi. cbn in Hpos, Ht, Hi.
      apply Z.ltb_lt in Hpos. now rewrite Hpos, Ht, Hi in Htest.
Qed.

(** C6 (amended).  For every address the UTXO source returns and never
    raises.  Every entry it returns was built from an entry of the
    indexer's list whose value converts to a strictly positive number of
    satoshis, whose transaction id is present and truthy (not [None], not
    empty, not zero), and whose output index is an [int]; the form of the
    id and the sign of the index are not looked at.  An indexer that
    cannot be reached, that answers with an error status, or whose answer
    is not JSON, gives the empty list. *)
Theorem fetch_utxos_filtered self (address : string) w :
  let url := unspent_url self address in
  let o := http_get (log w) url in
  exists utxos,
    _fetch_utxos self address w = (Return utxos, record (HttpGet url o) w)
    /\ (forall u, In u utxos ->
          0 < Utxo.sats u
          /\ truthy (Utxo.txid u) = true
          /\ isinstance_int (Utxo.index u) = true
          /\ exists response data items entry,
               o = requests.Responded response
               /\ requests.json_body response = Some data
               /\ PyIter.iter data = Return items
               /\ In entry items
               /\ appended_for address entry u)
    /\ (forall m, o = requests.Failed m -> utxos = [])
    /\ (forall response,
          o = requests.Responded response ->
          400 <= requests.status_code response < 600 -> utxos = [])
    /\ (forall response,
          o = requests.Responded response ->
          requests.json_body response = None -> utxos = []).
Proof.
  intros url o. exists (fetched self address o).
  split; [apply fetch_utxos_run|].
  unfold fetched, parse_unspent. fold url.
  split; [|split; [|split]].
  - intros u Hu. destruct o as [m|response]; [destruct Hu|].
    unfold mbind, result_bind in Hu.
    destruct (requests.raise_for_status url response) as [[]|e]; [|destruct Hu].
    unfold requests.json in Hu.
    destruct (requests.json_body response) as [data|] eqn:Hjson; [|destruct Hu].
    destruct (PyIter.iter data) as [items|e] eqn:Hiter; [|destruct Hu].
    destruct (fetch_loop address items []) as [out|e] eqn:Hloop; [|destruct Hu].
    destruct (fetch_loop_sound _ _ _ _ Hloop u Hu)
      as [[]|(entry & Hentry & Happ & Hpos & Htxid & Hindex)].
    repeat (split; [assumption|]).
    now exists response, data, items, entry.
  - intros m ->. reflexivity.
  - intros response -> [Hlo Hhi]. unfold requests.raise_for_status.
    apply Z.leb_le in Hlo. apply Z.ltb_lt in Hhi. now rewrite Hlo, Hhi.
  - intros response -> Hjson. unfold mbind, result_bind, requests.json.
    rewrite Hjson. now destruct (requests.raise_for_status url response) as [[]|e].
Qed.

End UtxoSource.

Section UtxoSourceExamples.
Import Py Effects bsvlib BsvService.

(** Of four entries the one with a positive value, a transaction id and an
    integer index is kept. *)
Example fetch_mixed :
  exists utxos w',
    Simulation.fetch Simulation.mixed = (Return utxos, w')
    /\ map Utxo.sats utxos = [2000]
    /\ map Utxo.txid utxos = [PStr "bb"].
Proof. eexists _, _. split; [vm_compute; reflexivity|]. split; reflexivity. Qed.

Example fetch_unreachable :
  fst (Simulation.fetch (requests.Failed "connection refused")) = Return [].
Proof. reflexivity. Qed.

Example fetch_server_error :
  fst (Simulation.fetch (Simulation.status 503)) = Return [].
Proof. reflexivity. Qed.

(** An entry whose value does not convert stops the loop: the error is
    caught and the outputs collected so far are dropped with it. *)
Example fetch_null_value :
  fst (Simulation.fetch Simulation.null_value) = Return [].
Proof. reflexivity. Qed.

(** C6, counterexample.  Both entries of the answer are returned: the
    first has the number 7 for transaction id and [True] for index, the
    second an id that is not hexadecimal and the index -1. *)
Lemma malformed_outpoints_are_returned :
  exists u1 u2 w',
    Simulation.fetch Outpoint.malformed = (Return [u1; u2], w')
    /\ Utxo.txid u1 = PInt 7 /\ Utxo.index u1 = PBool true
    /\ Outpoint.well_formed_txid (Utxo.txid u1) = false
    /\ Outpoint.well_formed_index (Utxo.index u1) = false
    /\ Utxo.txid u2 = PStr "zz not hex" /\ Utxo.index u2 = PInt (-1)
    /\ Outpoint.well_formed_txid (Utxo.txid u2) = false
    /\ Outpoint.well_formed_index (Utxo.index u2) = false.
Proof.
  eexists _, _, _. split; [vm_compute; reflexivity|].
  repeat split.
Qed.

Lemma fetch_utxos_filtered_witness :
  exists utxos w',
    Simulation.fetch Simulation.mixed = (Return utxos, w')
    /\ List.Forall (fun u => 0 < Utxo.sats u) utxos
    /\ fst (Simulation.fetch (Simulation.status 503)) = Return [].
Proof.
  eexists _, _. split; [vm_compute; reflexivity|]. split.
  - destruct (@fetch_utxos_filtered Simulation.builtins
                (Simulation.lib Simulation.p2pkh_size)
                (Simulation.network Simulation.mixed (Simulation.status 500))
                unit (Simulation.service Simulation.no_db) "addr-1"
                (Simulation.start tt)) as (utxos & Hrun & Hsound & _).
    apply List.Forall_forall. intros u Hu.
    apply Hsound.
    vm_compute in Hrun. injection Hrun as <-. exact Hu.
  - destruct (@fetch_utxos_filtered Simulation.builtins
                (Simulation.lib Simulation.p2pkh_size)
                (Simulation.network (Simulation.status 503) (Simulation.status 500))
                unit (Simulation.service Simulation.no_db) "addr-1"
                (Simulation.start tt)) as (utxos & Hrun & _ & _ & Hstatus & _).
    unfold Simulation.fetch. rewrite Hrun.
    rewrite (Hstatus _ eq_refl); [reflexivity|]. cbn. lia.
Defined.

End UtxoSourceExamples.

(** ** The broadcaster *)

Section Broadcaster.
Import Py Effects bsvlib BsvService.
Context `{Builtins} `{Lib} `{Network} {S : Type}.
Implicit Types (self : BsvService.t S) (w : world S).

(** C9.  For every signed transaction the broadcaster raises its
    broadcast error exactly when the submission fails in transport or is
    answered with an error status; otherwise it returns the identifier
    computed locally, also when the endpoint reports another one. *)
Theorem broadcast_tx_contract self (tx : Tx.t) w :
  let o := http_post (log w) (broadcast_url self) (hex tx) in
  let outcome := fst (_broadcast_tx self tx w) in
  (((exists m, o = requests.Failed m)
    \/ (exists response,
          o = requests.Responded response
          /\ 400 <= requests.status_code response < 600))
   <-> exists reason,
         outcome = Raise (Exception ("Failed to broadcast transaction: " +:+ reason)))
  /\ (forall e, outcome = Raise e ->
        exists reason, e = Exception ("Failed to broadcast transaction: " +:+ reason))
  /\ (accepted o = true <-> outcome = Return (txid tx))
  /\ (forall response,
        o = requests.Responded response ->
        accepted o = true ->
        PyStr.strip_char PyStr.double_quote (PyStr.strip (requests.text response))
          <> txid tx ->
        outcome = Return (txid tx)).
Proof.
  intros o outcome.
  assert (Hout : outcome = broadcast_result self tx o).
  { unfold outcome. now rewrite broadcast_tx_run. }
  rewrite Hout. clear Hout outcome.
  unfold broadcast_result, accepted, requests.raise_for_status.
  destruct o as [m|response].
  - split; [|split; [|split]].
    + split; [intros _; now exists m|intros _; left; now exists m].
    + intros e [= <-]. now exists m.
    + split; discriminate.
    + discriminate.
  - destruct ((400 <=? requests.status_code response)
              && (requests.status_code response <? 600)) eqn:Hst.
    + apply andb_prop in Hst. destruct Hst as [Hlo Hhi].
      apply Z.leb_le in Hlo. apply Z.ltb_lt in Hhi.
      split; [|split; [|split]].
      * split; [intros _; eexists; reflexivity|].
        intros _. right. exists response. split; [reflexivity|lia].
      * intros e [= <-]. eexists; reflexivity.
      * split; discriminate.
      * discriminate.
    + split; [|split; [|split]].
      * split; [|intros [reason Hr]; discriminate].
        intros [[m Hm]|(r & [= <-] & Hlo & Hhi)]; [discriminate|].
        apply Z.leb_le in Hlo. apply Z.ltb_lt in Hhi.
        rewrite Hlo, Hhi in Hst. discriminate.
      * discriminate.
      * split; reflexivity.
      * reflexivity.
Qed.

End Broadcaster.

Section BroadcasterExamples.
Import Py Effects bsvlib BsvService.

(** The endpoint accepts and reports another identifier: the local one is
    returned. *)
Lemma broadcast_tx_contract_witness :
  fst (@_broadcast_tx (Simulation.lib Simulation.p2pkh_size)
         (Simulation.network (Simulation.funded 2000)
            (Simulation.ok "0000000000000000000000000000000000000000" None))
         unit (Simulation.service Simulation.no_db)
         (Tx.new "testnet") (Simulation.start tt))
  = Return "txid-0-0".
Proof.
  destruct (@broadcast_tx_contract (Simulation.lib Simulation.p2pkh_size)
              (Simulation.network (Simulation.funded 2000)
                 (Simulation.ok "0000000000000000000000000000000000000000" None))
              unit (Simulation.service Simulation.no_db)
              (Tx.new "testnet") (Simulation.start tt))
    as (_ & _ & _ & Hmismatch).
  apply (Hmismatch _ eq_refl); [reflexivity|].
  vm_compute. discriminate.
Defined.

Example broadcast_rejected :
  fst (@_broadcast_tx (Simulation.lib Simulation.p2pkh_size)
         (Simulation.network (Simulation.funded 2000) (Simulation.status 400))
         unit (Simulation.service Simulation.no_db)
         (Tx.new "testnet") (Simulation.start tt))
  = Raise (Exception "Failed to broadcast transaction: 400 Error for url: https://api.whatsonchain.com/v1/bsv/testnet/tx/raw").
Proof. vm_compute. reflexivity. Qed.

End BroadcasterExamples.

(** ** The orchestrator *)

Section Orchestrator.
Import Py Effects bsvlib BsvService.
Context `{Builtins} `{Lib} `{Network} {S : Type}.
Implicit Types (self : BsvService.t S) (w : world S).

Lemma append_assoc (a b c : string) : (a +:+ b) +:+ c = a +:+ b +:+ c.
Proof.
  induction a as [|x a IH]; [reflexivity|].
  change (String x ((a +:+ b) +:+ c) = String x (a +:+ b +:+ c)).
  now rewrite IH.
Qed.

(** A list that ends with [x] and has no [y] before splits around [y] in
    one way. *)
Lemma split_at_last {A} (l1 l2 l3 : list A) (x y : A) :
  l1 ++ [x] = l2 ++ y :: l3 -> ~ In y l1 -> l2 = l1 /\ l3 = [] /\ x = y.
Proof.
  revert l2. induction l1 as [|a l1 IH]; intros [|b l2] Heq Hnin; cbn in Heq.
  - injection Heq as -> <-. auto.
  - injection Heq as _ Heq. destruct l2; discriminate.
  - injection Heq as -> _. exfalso. apply Hnin. now left.
  - injection Heq as -> Heq.
    destruct (IH l2 Heq) as (-> & -> & ->); [intros Hy; apply Hnin; now right|].
    auto.
Qed.

Lemma add_vcsl_run self (id ipns : string) w :
  add_vcsl self id ipns w
  = match anchor self ("vcsl/" +:+ id) w with
    | (Raise e, w1) => (Raise (anchor_failed id e), w1)
    | (Return txid, w1) =>
        let w2 := fun s' =>
          {| store := s'; log := log w1 ++ [DbCall (store_vcsl id ipns txid)] |} in
        match db_store_vcsl (db_service self) id ipns txid (store w1) with
        | (Return _, s') => (Return txid, w2 s')
        | (Raise db_err, s') => (Raise (anchored_not_stored id txid db_err), w2 s')
        end
    end.
Proof.
  unfold add_vcsl, anchor. unfold_M.
  destruct (_create_anchor_tx _ _ w) as [[tx|e] w1]; [|reflexivity].
  destruct (_broadcast_tx _ tx w1) as [[txid|e] w2]; [|reflexivity].
  destruct (db_store_vcsl _ _ _ _ _) as [[[]|e] s']; reflexivity.
Qed.

Lemma set_issuer_url_run self (issuer_id new_issuer_url : string) w :
  set_issuer_url self issuer_id new_issuer_url w
  = let w0 := fun s' =>
      {| store := s';
         log := log w ++ [DbCall (update_issuer_url issuer_id new_issuer_url)] |} in
    match db_update_issuer_url (db_service self) issuer_id new_issuer_url (store w) with
    | (Raise db_err, s') =>
        (Raise (Exception ("Failed to update issuer URL in database: " +:+ str db_err)),
         w0 s')
    | (Return _, s') =>
        match anchor self ("issuer/" +:+ issuer_id) (w0 s') with
        | (Raise e, w1) => (Return None, w1)
        | (Return txid, w1) =>
            (Return (Some txid),
             {| store := snd (db_store_issuer_anchor (db_service self) issuer_id txid
                                (store w1));
                log := log w1 ++ [DbCall (store_issuer_anchor issuer_id txid)] |})
        end
    end.
Proof.
  unfold set_issuer_url, anchor. unfold_M.
  destruct (db_update_issuer_url _ _ _ _) as [[[]|e] s']; [|reflexivity].
  destruct (_create_anchor_tx _ _ _) as [[tx|e] w1]; [|reflexivity].
  destruct (_broadcast_tx _ tx w1) as [[txid|e] w2]; [|reflexivity].
  destruct (db_store_issuer_anchor _ _ _ _) as [[[]|e] s'']; reflexivity.
Qed.

(** C7.  In [add_vcsl] anchoring comes before persistence.  Every call of
    a store method in its run comes after a broadcast the endpoint
    accepted; when derivation, build or broadcast fails the call fails,
    the store is as it was and no store method was called; when the
    broadcast succeeds and the store write raises, the call fails with an
    error of its own, different from every anchoring failure, whose text
    carries the transaction id; when both succeed the id is returned. *)
Theorem add_vcsl_anchor_then_store self (id ipns : string) w :
  let key_id := "vcsl/" +:+ id in
  let outcome := fst (add_vcsl self id ipns w) in
  let w' := snd (add_vcsl self id ipns w) in
  exists new,
    log w' = log w ++ new
    /\ (forall pre c post,
          new = pre ++ DbCall c :: post ->
          exists url tx_hex o, In (HttpPost url tx_hex o) pre /\ accepted o = true)
    /\ (forall e w1,
          anchor self key_id w = (Raise e, w1) ->
          outcome = Raise (anchor_failed id e)
          /\ store w' = store w
          /\ forall c, ~ In (DbCall c) new)
    /\ (forall txid w1 db_err s',
          anchor self key_id w = (Return txid, w1) ->
          db_store_vcsl (db_service self) id ipns txid (store w1) = (Raise db_err, s') ->
          outcome = Raise (anchored_not_stored id txid db_err)
          /\ (forall e, anchored_not_stored id txid db_err <> anchor_failed id e)
          /\ exists before after,
               str (anchored_not_stored id txid db_err) = before +:+ txid +:+ after)
    /\ (forall txid w1 s',
          anchor self key_id w = (Return txid, w1) ->
          db_store_vcsl (db_service self) id ipns txid (store w1) = (Return tt, s') ->
          outcome = Return txid /\ store w' = s').
Proof.
  intros key_id outcome w'. subst outcome w'.
  rewrite add_vcsl_run. fold key_id.
  destruct (anchor self key_id w) as [[txid|e] w1] eqn:Ha;
    destruct (anchor_effects _ _ _ _ _ Ha) as (Hstore & anew & Hlog & Hnodb & Hpost).
  - destruct (Hpost txid eq_refl) as (url & tx_hex & o & Hin & Hacc).
    exists (anew ++ [DbCall (store_vcsl id ipns txid)]).
    split.
    { destruct (db_store_vcsl _ _ _ _ _) as [[[]|db_err] s']; cbn;
        now rewrite Hlog, <- app_assoc. }
    split.
    { intros pre c post Hsplit.
      destruct (split_at_last _ _ _ _ _ Hsplit (Hnodb c)) as (-> & _ & _).
      now exists url, tx_hex, o. }
    split; [intros e w2 [=]|].
    split.
    + intros txid' w2 db_err s' [= <- <-] Hdb. rewrite Hdb. cbn.
      split; [reflexivity|]. split.
      * intros e Heq. unfold anchored_not_stored, anchor_failed in Heq.
        injection Heq as Heq. cbv [String.append] in Heq. discriminate Heq.
      * exists ("VCSL " +:+ id +:+ " anchored ("),
               ("), but failed to store in DB: " +:+ str db_err).
        cbn. now rewrite !append_assoc.
    + intros txid' w2 s' [= <- <-] Hdb. rewrite Hdb. cbn. auto.
  - exists anew. split; [exact Hlog|].
    split.
    { intros pre c post ->. exfalso. apply (Hnodb c).
      apply in_or_app. right. now left. }
    split.
    + intros e' w2 [= <- <-]. cbn. auto.
    + split; intros txid w2; intros; discriminate.
Qed.

(** C8.  In [set_issuer_url] a failure of the first store write fails the
    call before any network traffic; once that write has succeeded, a
    failure of derivation, build or broadcast makes the call return
    [None]; and after a successful broadcast the call returns the
    transaction id whether or not the anchor could be stored. *)
Theorem set_issuer_url_best_effort self (issuer_id new_issuer_url : string) w :
  let key_id := "issuer/" +:+ issuer_id in
  let run := set_issuer_url self issuer_id new_issuer_url w in
  let w0 := fun s' =>
    {| store := s';
       log := log w ++ [DbCall (update_issuer_url issuer_id new_issuer_url)] |} in
  let first_write :=
    db_update_issuer_url (db_service self) issuer_id new_issuer_url (store w) in
  (forall db_err s',
     first_write = (Raise db_err, s') ->
     run = (Raise (Exception ("Failed to update issuer URL in database: "
                              +:+ str db_err)), w0 s'))
  /\ (forall s' e w1,
        first_write = (Return tt, s') ->
        anchor self key_id (w0 s') = (Raise e, w1) ->
        run = (Return None, w1))
  /\ (forall s' txid w1,
        first_write = (Return tt, s') ->
        anchor self key_id (w0 s') = (Return txid, w1) ->
        fst run = Return (Some txid)
        /\ log (snd run) = log w1 ++ [DbCall (store_issuer_anchor issuer_id txid)]
        /\ forall db_err s'',
             db_store_issuer_anchor (db_service self) issuer_id txid (store w1)
               = (Raise db_err, s'') ->
             run = (Return (Some txid),
                    {| store := s'';
                       log := log w1 ++ [DbCall (store_issuer_anchor issuer_id txid)] |})).
Proof.
  intros key_id run w0 first_write. subst run.
  rewrite set_issuer_url_run. fold key_id first_write. cbv zeta. fold w0.
  split; [|split].
  - intros db_err s' ->. reflexivity.
  - intros s' e w1 -> Ha. now rewrite Ha.
  - intros s' txid w1 -> Ha. rewrite Ha. cbn.
    split; [reflexivity|]. split; [reflexivity|].
    intros db_err s'' Hdb. now rewrite Hdb.
Qed.

End Orchestrator.

Section OrchestratorExamples.
Import Py Effects bsvlib BsvService.

Local Abbreviation B := Simulation.builtins.
Local Abbreviation L := (Simulation.lib Simulation.p2pkh_size).

(** A rejected broadcast: [add_vcsl] fails and the store is untouched. *)
Example add_vcsl_broadcast_rejected :
  exists e w',
    @add_vcsl B L Simulation.rejecting _
      (Simulation.service Simulation.MemoryDb.service) "list-1" "k51qzi5uqu5d"
      (Simulation.start Simulation.MemoryDb.empty) = (Raise e, w')
    /\ store w' = Simulation.MemoryDb.empty
    /\ String.prefix "Failed to create BSV anchor for VCSL list-1" (str e) = true
    /\ forall c, ~ In (DbCall c) (log w').
Proof.
  eexists _, _. split; [vm_compute; reflexivity|].
  split; [reflexivity|]. split; [reflexivity|].
  intros c [Hc|[Hc|[]]]; discriminate.
Qed.

(** Everything succeeds: the record is stored with the anchor. *)
Example add_vcsl_stored :
  exists w',
    @add_vcsl B L Simulation.online _
      (Simulation.service Simulation.MemoryDb.service) "list-1" "k51qzi5uqu5d"
      (Simulation.start Simulation.MemoryDb.empty) = (Return "txid-2000-1887", w')
    /\ Simulation.MemoryDb.vcsl (store w') !! "list-1"
       = Some ("k51qzi5uqu5d", "txid-2000-1887").
Proof. eexists. split; [vm_compute; reflexivity|]. reflexivity. Qed.

(** The broadcast is accepted and the store write fails. *)
Lemma add_vcsl_anchor_then_store_witness :
  exists e before after,
    fst (@add_vcsl B L Simulation.online _
           (Simulation.service Simulation.MemoryDb.service) "list-1" "k51qzi5uqu5d"
           (Simulation.start Simulation.failing_store))
    = Raise e
    /\ str e = before +:+ "txid-2000-1887" +:+ after.
Proof.
  destruct (@add_vcsl_anchor_then_store B L Simulation.online _
              (Simulation.service Simulation.MemoryDb.service)
              "list-1" "k51qzi5uqu5d" (Simulation.start Simulation.failing_store))
    as (new & _ & _ & _ & Hreconcile & _).
  edestruct Hreconcile as (Hout & _ & before & after & Htext);
    [vm_compute; reflexivity|vm_compute; reflexivity|].
  eexists _, before, after. split; [exact Hout|exact Htext].
Defined.

(** The anchor is on chain and could not be recorded: the id is returned
    all the same. *)
Lemma set_issuer_url_best_effort_witness :
  fst (@set_issuer_url B L Simulation.online _
         (Simulation.service Simulation.MemoryDb.service)
         "alice" "https://alice.example"
         (Simulation.start Simulation.failing_store))
  = Return (Some "txid-2000-1887").
Proof.
  destruct (@set_issuer_url_best_effort B L Simulation.online _
              (Simulation.service Simulation.MemoryDb.service)
              "alice" "https://alice.example"
              (Simulation.start Simulation.failing_store))
    as (_ & _ & Hanchored).
  edestruct Hanchored as (Hout & _);
    [vm_compute; reflexivity|vm_compute; reflexivity|].
  exact Hout.
Defined.

(** A rejected broadcast after the first write: no anchor, no failure. *)
Example set_issuer_url_not_anchored :
  exists w',
    @set_issuer_url B L Simulation.rejecting _
      (Simulation.service Simulation.MemoryDb.service)
      "alice" "https://alice.example"
      (Simulation.start Simulation.MemoryDb.empty) = (Return None, w')
    /\ Simulation.MemoryDb.issuer_url (store w') !! "alice"
       = Some "https://alice.example".
Proof. eexists. split; [vm_compute; reflexivity|]. reflexivity. Qed.

(** On the store [di_init] wires in, the first write raises for want of
    the method, and the call fails before any network traffic. *)
Example set_issuer_url_on_postgres :
  exists e w',
    @set_issuer_url B L Simulation.online _ Simulation.on_postgres
      "alice" "https://alice.example"
      (Simulation.start (Simulation.postgres true)) = (Raise e, w')
    /\ log w' = [DbCall (update_issuer_url "alice" "https://alice.example")]
    /\ String.prefix "Failed to update issuer URL in database" (str e) = true.
Proof. eexists _, _. split; [vm_compute; reflexivity|]. split; reflexivity. Qed.

End OrchestratorExamples.

(** ** The getters *)

Section Getters.
Import Py Effects bsvlib.

(** C10 (amended), on the PostgreSQL store.  The service-level getters
    return [None], respectively [(None, None)], when the record is absent
    and also when the store query fails (pool not set up, server down, an
    identifier the driver rejects), and the row otherwise; the exposed
    operations return the record when the getter gives one and signal an
    HTTP error in every other case, one and the same error for an
    identifier whether the record is absent or the query failed. *)
Theorem getters_on_postgres (net : string) (key : Key.t) (id : string)
    (w : world PostgresDataStore.t) :
  let self :=
    {| BsvService.db_service := PostgresDataStore.as_db_service;
       BsvService.network := net; BsvService.wallet_key := key |} in
  let router := {| VcslRouter.bsv_service := self |} in
  let answers := fun pg =>
    PostgresDataStore.pool pg && PostgresDataStore.server_up pg
    && negb (PostgresDataStore.has_nul id) in
  let no_issuer := fun w' : world PostgresDataStore.t =>
    answers (store w') = false
    \/ PostgresDataStore.issuer_urls (store w') !! id = None in
  let no_vcsl := fun w' : world PostgresDataStore.t =>
    answers (store w') = false
    \/ PostgresDataStore.vcsl_data (store w') !! id = None in
  (fst (BsvService.get_issuer_url self id w) = Return PNone <-> no_issuer w)
  /\ (fst (BsvService.get_vcsl self id w) = Return (PNone, PNone) <-> no_vcsl w)
  /\ (forall url txid,
        answers (store w) = true ->
        PostgresDataStore.issuer_urls (store w) !! id = Some (url, txid) ->
        let row := PTuple [PStr url; PostgresDataStore.column txid] in
        fst (BsvService.get_issuer_url self id w) = Return row
        /\ fst (VcslRouter.get_issuer_url router id w)
           = Return (PDict [("issuer_id", PStr id); ("url", row)]))
  /\ (forall ipns txid,
        answers (store w) = true ->
        PostgresDataStore.vcsl_data (store w) !! id = Some (ipns, txid) ->
        fst (BsvService.get_vcsl self id w) = Return (PStr ipns, PStr txid)
        /\ fst (VcslRouter.get_vcsl router id w)
           = Return (PDict [("id", PStr id); ("ipns", PStr ipns); ("txid", PStr txid)]))
  /\ (exists status_code detail,
        forall w' : world PostgresDataStore.t,
          no_issuer w' ->
          fst (VcslRouter.get_issuer_url router id w')
          = Raise (HTTPException status_code detail))
  /\ (exists status_code detail,
        forall w' : world PostgresDataStore.t,
          no_vcsl w' ->
          fst (VcslRouter.get_vcsl router id w')
          = Raise (HTTPException status_code detail)).
Proof.
  intros self router answers no_issuer no_vcsl.
  subst no_issuer no_vcsl answers self router. cbv beta.
  unfold VcslRouter.get_issuer_url, VcslRouter.get_vcsl,
    BsvService.get_issuer_url, BsvService.get_vcsl.
  unfold_M. cbn [BsvService.db_service VcslRouter.bsv_service db_get_issuer_url
                 db_get_vcsl PostgresDataStore.as_db_service].
  unfold PostgresDataStore.get_issuer_url, PostgresDataStore.get_vcsl.
  split; [|split; [|split; [|split; [|split]]]].
  5: { exists 500,
         ("Error retrieving issuer URL: "
          +:+ Py.str (HTTPException 404 ("Issuer URL not found for " +:+ id))).
       intros w' Hno.
       destruct (PostgresDataStore.pool (store w')),
         (PostgresDataStore.server_up (store w')),
         (PostgresDataStore.has_nul id); cbn in *; try reflexivity.
       destruct Hno as [Hno|Hno]; [discriminate|]. now rewrite Hno. }
  5: { exists 500,
         ("Error retrieving VCSL data: "
          +:+ Py.str (HTTPException 404 ("VCSL data not found for id " +:+ id))).
       intros w' Hno.
       destruct (PostgresDataStore.pool (store w')),
         (PostgresDataStore.server_up (store w')),
         (PostgresDataStore.has_nul id); cbn in *; try reflexivity.
       destruct Hno as [Hno|Hno]; [discriminate|]. now rewrite Hno. }
  all: destruct (PostgresDataStore.pool (store w)),
         (PostgresDataStore.server_up (store w)),
         (PostgresDataStore.has_nul id); cbn;
       destruct (PostgresDataStore.issuer_urls (store w) !! id) as [[url txid]|];
       destruct (PostgresDataStore.vcsl_data (store w) !! id) as [[ipns vtxid]|]; cbn;
       repeat match goal with
              | |- _ /\ _ => split
              | |- _ <-> _ => split
              | |- forall _, _ => intro
              | H : _ \/ _ |- _ => destruct H
              | H : Some _ = Some _ |- _ => injection H as <- <-
              | |- _ \/ _ => first [left; reflexivity | right; reflexivity]
              | _ => reflexivity || discriminate
              end.
Qed.

End Getters.

Section GettersExamples.
Import Py Effects bsvlib.

Local Abbreviation router :=
  {| VcslRouter.bsv_service := Simulation.on_postgres |}.

(** C10, counterexample.  With the server down the service-level getter
    returns [None] for an issuer that is in the store; the exposed
    operation gives one and the same error for an unknown issuer whether
    the store answers or not; and that error has status 500, for issuers
    and for lists alike. *)
Lemma not_found_is_not_distinct :
  PostgresDataStore.issuer_urls (Simulation.postgres false) !! "alice"
    = Some ("https://alice.example", None)
  /\ fst (BsvService.get_issuer_url Simulation.on_postgres "alice"
            (Simulation.start (Simulation.postgres false))) = Return PNone
  /\ PostgresDataStore.issuer_urls (Simulation.postgres true) !! "bob" = None
  /\ fst (VcslRouter.get_issuer_url router "bob"
            (Simulation.start (Simulation.postgres false)))
     = fst (VcslRouter.get_issuer_url router "bob"
              (Simulation.start (Simulation.postgres true)))
  /\ (exists detail,
        fst (VcslRouter.get_issuer_url router "bob"
               (Simulation.start (Simulation.postgres true)))
        = Raise (HTTPException 500 detail))
  /\ (exists detail,
        fst (VcslRouter.get_vcsl router "list-9"
               (Simulation.start (Simulation.postgres true)))
        = Raise (HTTPException 500 detail)).
Proof.
  split; [reflexivity|]. split; [reflexivity|]. split; [reflexivity|].
  split; [reflexivity|]. split; eexists; vm_compute; reflexivity.
Qed.

Lemma getters_on_postgres_witness :
  fst (VcslRouter.get_vcsl router "list-1"
         (Simulation.start (Simulation.postgres true)))
  = Return (PDict [("id", PStr "list-1"); ("ipns", PStr "k51qzi5uqu5d");
                   ("txid", PStr "txid-1")]).
Proof.
  destruct (getters_on_postgres "testnet" Simulation.master "list-1"
              (Simulation.start (Simulation.postgres true)))
    as (_ & _ & _ & Hvcsl & _).
  apply (Hvcsl "k51qzi5uqu5d" "txid-1"); reflexivity.
Defined.

End GettersExamples.

(** * Further properties *)

(** ** The UTXO source, entry by entry *)

Section UtxoSourceMore.
Import Py Effects bsvlib BsvService.
Context `{Builtins} `{Lib} `{Network} {S : Type}.
Implicit Types (self : BsvService.t S) (w : world S).

Lemma fetch_loop_exact (address : string) (items : list pyval) :
  forall acc,
    List.Forall (fun entry => Entries.raises entry = false) items ->
    fetch_loop address items acc = Return (acc ++ omap (Entries.kept address) items).
Proof.
  induction items as [|entry items IH]; intros acc Hok.
  - cbn. now rewrite app_nil_r.
  - inversion Hok as [|? ? Hentry Hrest]; subst.
    cbn [fetch_loop omap list_omap]. unfold Entries.raises in Hentry.
    unfold Entries.kept, mbind, result_bind.
    destruct (Py.get entry "value" (PInt 0)) as [value|] eqn:Hvalue; [|discriminate].
    destruct (Py.int value) as [sats|]; [|discriminate].
    destruct (Py.get entry "tx_hash" PNone) as [txid|] eqn:Htxid.
    + destruct (Py.get entry "tx_pos" PNone) as [index|] eqn:Hindex.
      * destruct ((0 <? sats) && truthy txid && isinstance_int index).
        -- rewrite (IH _ Hrest). now rewrite <- app_assoc.
        -- apply (IH _ Hrest).
      * destruct entry; cbn in *; congruence.
    + destruct entry; cbn in *; congruence.
Qed.

Lemma fetch_loop_poisoned (address : string) (items : list pyval) (entry : pyval) :
  In entry items -> Entries.raises entry = true ->
  forall acc, exists e, fetch_loop address items acc = Raise e.
Proof.
  induction items as [|first items IH]; intros Hin Hbad acc; [destruct Hin|].
  cbn [fetch_loop]. unfold mbind, result_bind.
  destruct (Py.get first "value" (PInt 0)) as [value|e] eqn:Hvalue; [|eauto].
  destruct (Py.int value) as [sats|e] eqn:Hsats; [|eauto].
  destruct (Py.get first "tx_hash" PNone) as [txid|e]; [|eauto].
  destruct (Py.get first "tx_pos" PNone) as [index|e]; [|eauto].
  assert (Htail : In entry items).
  { destruct Hin as [<-|Hin]; [|exact Hin].
    unfold Entries.raises in Hbad. rewrite Hvalue, Hsats in Hbad. discriminate. }
  destruct (_ && _); now apply IH.
Qed.

(** X1.  When the indexer answers with a list none of whose entries makes
    the loop raise, the UTXO source returns exactly the entries that pass
    the test, each once, in the order of the answer. *)
Theorem fetch_utxos_exact self (address : string) w
    (response : requests.Response) (items : list pyval) :
  http_get (log w) (unspent_url self address) = requests.Responded response ->
  ~ (400 <= requests.status_code response < 600) ->
  requests.json_body response = Some (PList items) ->
  List.Forall (fun entry => Entries.raises entry = false) items ->
  fst (_fetch_utxos self address w) = Return (omap (Entries.kept address) items).
Proof.
  intros Ho Hstatus Hjson Hok. rewrite fetch_utxos_run. cbn [fst].
  unfold fetched, parse_unspent. rewrite Ho.
  unfold requests.raise_for_status, requests.json, mbind, result_bind.
  rewrite Hjson.
  destruct ((400 <=? requests.status_code response)
            && (requests.status_code response <? 600)) eqn:Hst.
  - exfalso. apply Hstatus. apply andb_prop in Hst. destruct Hst as [Hlo Hhi].
    apply Z.leb_le in Hlo. apply Z.ltb_lt in Hhi. lia.
  - cbn [PyIter.iter]. now rewrite (fetch_loop_exact address items [] Hok).
Qed.

(** X2.  One entry of the answer that makes the loop raise (an entry that
    is not an object, or whose value does not convert to an integer)
    empties the result: the spendable entries of the same answer are lost
    with it. *)
Theorem fetch_utxos_poisoned self (address : string) w
    (response : requests.Response) (data : pyval) (items : list pyval)
    (entry : pyval) :
  http_get (log w) (unspent_url self address) = requests.Responded response ->
  requests.json_body response = Some data ->
  PyIter.iter data = Return items ->
  In entry items ->
  Entries.raises entry = true ->
  fst (_fetch_utxos self address w) = Return [].
Proof.
  intros Ho Hjson Hiter Hin Hbad. rewrite fetch_utxos_run. cbn [fst].
  unfold fetched, parse_unspent. rewrite Ho.
  unfold requests.json, mbind, result_bind. rewrite Hjson, Hiter.
  destruct (requests.raise_for_status _ response) as [[]|e]; [|reflexivity].
  destruct (fetch_loop_poisoned address items entry Hin Hbad []) as [e ->].
  reflexivity.
Qed.

(** X3.  When the indexer cannot be reached, answers with an error status,
    with something that is not JSON or with an empty list, the builder
    raises the no-spendable-outputs error for the wallet address, having
    made the one query and nothing else. *)
Theorem create_anchor_tx_without_utxos self (derived_key : Key.t) w :
  let url := unspent_url self (address (wallet_key self)) in
  let o := http_get (log w) url in
  ((exists m, o = requests.Failed m)
   \/ exists response,
        o = requests.Responded response
        /\ (400 <= requests.status_code response < 600
            \/ requests.json_body response = None
            \/ requests.json_body response = Some (PList []))) ->
  _create_anchor_tx self derived_key w
  = (Raise (Exception ("No spendable UTXOs found for address "
                       +:+ address (wallet_key self))),
     record (HttpGet url o) w).
Proof.
  intros url o Hfail. rewrite create_anchor_tx_run. fold url o.
  assert (Hnone : fetched self (address (wallet_key self)) o = []).
  { unfold fetched, parse_unspent.
    destruct Hfail as [[m ->]|(response & -> & Hcase)]; [reflexivity|].
    unfold requests.raise_for_status, requests.json, mbind, result_bind.
    destruct ((400 <=? requests.status_code response)
              && (requests.status_code response <? 600)) eqn:Hst; [reflexivity|].
    destruct Hcase as [[Hlo Hhi]|[Hjson|Hjson]].
    - apply Z.leb_le in Hlo. apply Z.ltb_lt in Hhi.
      rewrite Hlo, Hhi in Hst. discriminate.
    - now rewrite Hjson.
    - now rewrite Hjson. }
  now rewrite Hnone.
Qed.

End UtxoSourceMore.

Section UtxoSourceMoreExamples.
Import Py Effects bsvlib BsvService.

Lemma fetch_utxos_exact_witness :
  exists utxos,
    fst (Simulation.fetch Simulation.mixed) = Return utxos
    /\ map Utxo.sats utxos = [2000].
Proof.
  eexists. split.
  - unfold Simulation.fetch, Simulation.mixed.
    eapply (@fetch_utxos_exact Simulation.builtins
              (Simulation.lib Simulation.p2pkh_size) _ unit).
    + reflexivity.
    + cbn. lia.
    + reflexivity.
    + repeat constructor.
  - reflexivity.
Defined.

(** The second entry has a [null] value: the first one, which is
    spendable, is lost. *)
Lemma fetch_utxos_poisoned_witness :
  fst (Simulation.fetch Simulation.null_value) = Return [].
Proof.
  unfold Simulation.fetch, Simulation.null_value.
  eapply (@fetch_utxos_poisoned Simulation.builtins
            (Simulation.lib Simulation.p2pkh_size) _ unit).
  - reflexivity.
  - reflexivity.
  - reflexivity.
  - right. left. reflexivity.
  - reflexivity.
Defined.

Lemma create_anchor_tx_without_utxos_witness :
  fst (@_create_anchor_tx Simulation.builtins (Simulation.lib Simulation.p2pkh_size)
         (Simulation.network (Simulation.status 503) (Simulation.status 500))
         unit (Simulation.service Simulation.no_db) Simulation.derived
         (Simulation.start tt))
  = Raise (Exception "No spendable UTXOs found for address addr-1").
Proof.
  rewrite (@create_anchor_tx_without_utxos Simulation.builtins
             (Simulation.lib Simulation.p2pkh_size)
             (Simulation.network (Simulation.status 503) (Simulation.status 500))
             unit (Simulation.service Simulation.no_db) Simulation.derived
             (Simulation.start tt)).
  - reflexivity.
  - right. eexists. split; [reflexivity|]. left. cbn. lia.
Defined.

End UtxoSourceMoreExamples.

(** ** The builder: what a transaction it returns is worth *)

Section BuilderMore.
Import Py Effects bsvlib BsvService.
Context `{Builtins} `{Lib} `{Network} {S : Type}.
Implicit Types (self : BsvService.t S) (w : world S).

(** X4.  A transaction the builder returns has one or two outputs, each of
    at least 546 satoshis, and what it leaves to the network is at least
    the fee and less than the fee plus 546. *)
Theorem anchor_tx_outputs_spendable self (derived_key : Key.t) w (tx : Tx.t) w' :
  _create_anchor_tx self derived_key w = (Return tx, w') ->
  exists utxo rest,
    _fetch_utxos self (address (wallet_key self)) w = (Return (utxo :: rest), w')
    /\ let fee := fee_of self derived_key utxo in
       List.Forall (fun o => 546 <= TxOutput.sats o) (Tx.outputs tx)
       /\ (1 <= length (Tx.outputs tx) <= 2)%nat
       /\ fee <= Tx.input_value tx - Tx.output_value tx < fee + 546
       /\ Tx.output_value tx < Tx.input_value tx.
Proof.
  intros Hc.
  destruct (create_anchor_tx_selected _ _ _ _ _ Hc) as (utxo & rest & Hf & Hb).
  exists utxo, rest. split; [exact Hf|]. cbv zeta.
  rewrite build_anchor_tx_cons in Hb.
  destruct (change_of self derived_key utxo <? 0) eqn:Hneg; [discriminate Hb|].
  apply Z.ltb_ge in Hneg. injection Hb as <-.
  pose proof (calculate_fee_min
                (estimate_with_placeholder self (funded_tx self derived_key utxo)))
    as Hmin.
  fold (fee_of self derived_key utxo) in Hmin.
  rewrite signed_input_value. unfold change_of in *.
  set (fee := fee_of self derived_key utxo) in *.
  destruct (dust_amount <=? Utxo.sats utxo - dust_amount - fee) eqn:Hd;
    [apply Z.leb_le in Hd|apply Z.leb_gt in Hd];
    unfold Tx.input_value, Tx.output_value, Tx.sign, Tx.add_output, funded_tx,
      Tx.add_input, Tx.new, dust_amount in *; cbn.
  - split; [repeat constructor; cbn; lia|]. split; [lia|]. lia.
  - split; [repeat constructor; cbn; lia|]. split; [lia|]. lia.
Qed.

(** X5.  For estimated sizes below 2^53 bytes, where the float product
    is exact: the fee grows with the size; it is 1 up to 3 bytes; and from
    2 bytes on twice the fee is the size or the size less one, so that the
    fee is short of half the size by less than a satoshi.  Beyond 2^53 the
    size is first rounded to a float, and the bound no longer holds: at
    2^54 + 3 bytes the fee is 2^53 + 2. *)
Theorem calculate_fee_bounds :
  (forall a b, 0 <= a <= b -> b < 2 ^ 53 -> calculate_fee a <= calculate_fee b)
  /\ (forall size, 0 <= size <= 3 -> calculate_fee size = 1)
  /\ (forall size, 2 <= size < 2 ^ 53 ->
        2 * calculate_fee size <= size <= 2 * calculate_fee size + 1)
  /\ calculate_fee (2 ^ 54 + 3) = 9007199254740994.
Proof.
  assert (Hhalf : forall size,
             0 <= size < 2 ^ 53 -> calculate_fee size = Z.max 1 (size / 2)).
  { intros size Hsize. rewrite calculate_fee_floor by lia.
    unfold Qfloor, fee_rate. cbn.
    change (Z.pos (1 * 2)) with 2. now rewrite Z.mul_1_r. }
  split; [|split; [|split]].
  - intros a b Hab Hb. rewrite !Hhalf by lia.
    pose proof (Z.div_le_mono a b 2 ltac:(lia) ltac:(lia)). lia.
  - intros size Hsize. rewrite Hhalf by lia.
    pose proof (Z.div_le_mono size 3 2 ltac:(lia) ltac:(lia)) as Hle.
    change (3 / 2) with 1 in Hle. lia.
  - intros size Hsize. rewrite Hhalf by lia.
    assert (1 <= size / 2) by (apply Z.div_le_lower_bound; lia).
    rewrite Z.max_r by lia.
    pose proof (Z.div_mod size 2 ltac:(lia)).
    pose proof (Z.mod_pos_bound size 2 ltac:(lia)). lia.
  - vm_compute. reflexivity.
Qed.

End BuilderMore.

Section BuilderMoreExamples.
Import Py Effects bsvlib BsvService.

Lemma anchor_tx_outputs_spendable_witness :
  exists tx w',
    Simulation.create 225 1000 = (Return tx, w')
    /\ Tx.input_value tx - Tx.output_value tx < 112 + 546.
Proof.
  eexists _, _. split; [vm_compute; reflexivity|].
  edestruct (@anchor_tx_outputs_spendable Simulation.builtins
               (Simulation.lib (fun _ => 225))
               (Simulation.network (Simulation.funded 1000) (Simulation.status 500))
               _ (Simulation.service Simulation.MemoryDb.service)
               Simulation.derived
               (Simulation.start Simulation.MemoryDb.empty))
    as (utxo & rest & Hf & Hdust & Hlen & Hpaid & Hless);
    [vm_compute; reflexivity|].
  vm_compute in Hf. injection Hf as <- <-.
  exact (proj2 Hpaid).
Defined.

Lemma calculate_fee_bounds_witness :
  calculate_fee 225 <= calculate_fee 226
  /\ calculate_fee 3 = 1
  /\ 2 * calculate_fee 225 <= 225 <= 2 * calculate_fee 225 + 1.
Proof.
  destruct calculate_fee_bounds as (Hmono & Hone & Hhalf & _).
  split; [apply Hmono; lia|]. split; [apply Hone; lia|apply Hhalf; lia].
Defined.

End BuilderMoreExamples.

(** ** Derivation contexts *)

Section Contexts.
Import Py Effects bsvlib BsvService.

Lemma encode_utf8_inj (a b : string) :
  Bytes.encode_utf8 a = Bytes.encode_utf8 b -> a = b.
Proof.
  unfold Bytes.encode_utf8. intros Heq.
  apply (f_equal string_of_list_byte) in Heq.
  now rewrite !string_of_list_byte_of_string in Heq.
Qed.

(** X6.  The messages [set_issuer_url] and [add_vcsl] hand to the HMAC are
    never the same, whatever the two identifiers; and within each of the
    two operations different identifiers give different messages. *)
Theorem derivation_contexts_separate :
  let message := fun key_id =>
    Bytes.encode_utf8 (context_string VCSL_PROTOCOL_ID key_id) in
  (forall issuer_id id,
     message ("issuer/" +:+ issuer_id) <> message ("vcsl/" +:+ id))
  /\ (forall a b,
        message ("issuer/" +:+ a) = message ("issuer/" +:+ b) -> a = b)
  /\ (forall a b,
        message ("vcsl/" +:+ a) = message ("vcsl/" +:+ b) -> a = b).
Proof.
  intros message. subst message. cbv beta.
  split; [|split]; intros a b Heq; apply encode_utf8_inj in Heq;
    unfold context_string, VCSL_PROTOCOL_ID in Heq;
    cbv [String.append] in Heq; congruence.
Qed.

Lemma derivation_contexts_separate_witness :
  Bytes.encode_utf8 (context_string VCSL_PROTOCOL_ID ("issuer/" +:+ "abc"))
  <> Bytes.encode_utf8 (context_string VCSL_PROTOCOL_ID ("vcsl/" +:+ "abc")).
Proof.
  destruct derivation_contexts_separate as (Hapart & _).
  apply (Hapart "abc" "abc").
Defined.

End Contexts.

(** ** The orchestrator, run by run *)

Section OrchestratorMore.
Import Py Effects bsvlib BsvService.
Context `{Builtins} `{Lib} `{Network} {S : Type}.
Implicit Types (self : BsvService.t S) (w : world S).

(** X7.  When the wallet has no spendable output, or the first one does not
    cover dust plus fee, [add_vcsl] fails with the anchoring error whose
    text names the funding problem; it has made the query of unspent
    outputs and nothing else: no submission, no store call, the store as
    it was. *)
Theorem add_vcsl_unfunded self (id ipns : string) w (utxos : list Utxo.t) w1 :
  let derived_key := _derive_brc42_key self ("vcsl/" +:+ id) VCSL_PROTOCOL_ID in
  let url := unspent_url self (address (wallet_key self)) in
  _fetch_utxos self (address (wallet_key self)) w = (Return utxos, w1) ->
  (utxos = []
   \/ exists utxo rest,
        utxos = utxo :: rest
        /\ Utxo.sats utxo < dust_amount + fee_of self derived_key utxo) ->
  exists e,
    add_vcsl self id ipns w = (Raise (anchor_failed id e), w1)
    /\ (String.prefix "No spendable UTXOs" (str e) = true
        \/ String.prefix "Insufficient funds" (str e) = true)
    /\ store w1 = store w
    /\ log w1 = log w ++ [HttpGet url (http_get (log w) url)].
Proof.
  intros derived_key url Hf Hshort.
  assert (Hw1 : w1 = record (HttpGet url (http_get (log w) url)) w).
  { pose proof (fetch_utxos_run self (address (wallet_key self)) w) as Hrun.
    cbv zeta in Hrun. fold url in Hrun. rewrite Hf in Hrun. now injection Hrun. }
  assert (Hfail : exists e,
             build_anchor_tx self derived_key utxos = Raise e
             /\ (String.prefix "No spendable UTXOs" (str e) = true
                 \/ String.prefix "Insufficient funds" (str e) = true)).
  { destruct Hshort as [->|(utxo & rest & -> & Hlt)].
    - eexists. split; [reflexivity|]. left. reflexivity.
    - rewrite build_anchor_tx_cons.
      assert (Hneg : (change_of self derived_key utxo <? 0) = true)
        by (apply Z.ltb_lt; unfold change_of; lia).
      rewrite Hneg. eexists. split; [reflexivity|]. right. reflexivity. }
  destruct Hfail as (e & Hb & Htext). exists e.
  split; [|split; [exact Htext|now rewrite Hw1]].
  unfold add_vcsl. unfold_M. fold derived_key.
  rewrite (create_from_fetch _ derived_key _ _ _ Hf), Hb. reflexivity.
Qed.

(** X8.  A call of [add_vcsl] that returns has made three external calls
    in this order: the query of unspent outputs, the submission of the
    transaction it built, which the endpoint accepted, and one store
    write; the id it returns is the locally computed id of that
    transaction and the very id it stored. *)
Theorem add_vcsl_persists_returned_txid self (id ipns txid : string) w w' :
  let derived_key := _derive_brc42_key self ("vcsl/" +:+ id) VCSL_PROTOCOL_ID in
  let url := unspent_url self (address (wallet_key self)) in
  add_vcsl self id ipns w = (Return txid, w') ->
  exists tx o',
    build_anchor_tx self derived_key
      (fetched self (address (wallet_key self)) (http_get (log w) url)) = Return tx
    /\ txid = bsvlib.txid tx
    /\ accepted o' = true
    /\ log w' = log w ++ [HttpGet url (http_get (log w) url);
                          HttpPost (broadcast_url self) (hex tx) o';
                          DbCall (store_vcsl id ipns txid)]
    /\ db_store_vcsl (db_service self) id ipns txid (store w) = (Return tt, store w').
Proof.
  intros derived_key url. rewrite add_vcsl_run, anchor_run. cbv zeta.
  fold derived_key url.
  set (o := http_get (log w) url).
  destruct (build_anchor_tx self derived_key _) as [tx|e]; [|discriminate].
  cbn [log record store].
  set (o' := http_post _ _ _).
  unfold broadcast_result.
  destruct o' as [m|response] eqn:Ho'; [discriminate|].
  unfold requests.raise_for_status.
  destruct ((400 <=? requests.status_code response)
            && (requests.status_code response <? 600)) eqn:Hst; [discriminate|].
  cbn [store record log].
  destruct (db_store_vcsl _ _ _ _ _) as [[[]|db_err] s'] eqn:Hdb; [|discriminate].
  intros [= <- <-]. exists tx, (requests.Responded response).
  split; [reflexivity|]. split; [reflexivity|].
  split; [cbn; now rewrite Hst|].
  split; [cbn; now rewrite <- !app_assoc|]. exact Hdb.
Qed.

(** X9.  In [set_issuer_url] the first external call is the store write of
    the URL.  The store a call leaves is the one that write left when the
    call fails or returns no anchor, and the one [store_issuer_anchor] made
    of it when the call returns a transaction id: the anchoring steps in
    between never touch the store. *)
Theorem set_issuer_url_store self (issuer_id new_issuer_url : string) w
    (r : result (option string)) w' :
  let first :=
    db_update_issuer_url (db_service self) issuer_id new_issuer_url (store w) in
  set_issuer_url self issuer_id new_issuer_url w = (r, w') ->
  (exists rest,
     log w' = log w ++ DbCall (update_issuer_url issuer_id new_issuer_url) :: rest)
  /\ match r with
     | Raise _ =>
         (exists db_err, fst first = Raise db_err)
         /\ store w' = snd first
         /\ log w' = log w ++ [DbCall (update_issuer_url issuer_id new_issuer_url)]
     | Return None => fst first = Return tt /\ store w' = snd first
     | Return (Some txid) =>
         fst first = Return tt
         /\ store w'
            = snd (db_store_issuer_anchor (db_service self) issuer_id txid (snd first))
     end.
Proof.
  intros first. rewrite set_issuer_url_run. cbv zeta. fold first.
  destruct first as [[[]|db_err] s'].
  - destruct (anchor _ _ _) as [[txid|e] w1] eqn:Ha;
      destruct (anchor_effects _ _ _ _ _ Ha) as (Hstore & new & Hlog & _);
      cbn [store log] in Hstore, Hlog; intros [= <- <-]; cbn [store log fst snd].
    + split; [|now rewrite Hstore].
      exists (new ++ [DbCall (store_issuer_anchor issuer_id txid)]).
      rewrite Hlog, <- !app_assoc. reflexivity.
    + split; [|now rewrite Hstore].
      exists new. rewrite Hlog, <- app_assoc. reflexivity.
  - intros [= <- <-]. cbn. split; [now exists []|]. split; [eauto|auto].
Qed.

(** X10.  The two service-level getters never raise, whatever the store
    does.  When the store raises they return [None], respectively
    [(None, None)]; and [get_vcsl] also returns [(None, None)] when the
    store hands back something that does not unpack into two values,
    [None] among them. *)
Theorem service_getters_never_raise self (id : string) w :
  (exists url, fst (get_issuer_url self id w) = Return url)
  /\ (exists ipns txid, fst (get_vcsl self id w) = Return (ipns, txid))
  /\ (forall e s',
        db_get_issuer_url (db_service self) id (store w) = (Raise e, s') ->
        fst (get_issuer_url self id w) = Return PNone)
  /\ (forall e s',
        db_get_vcsl (db_service self) id (store w) = (Raise e, s') ->
        fst (get_vcsl self id w) = Return (PNone, PNone))
  /\ (forall a b s',
        db_get_vcsl (db_service self) id (store w) = (Return (PTuple [a; b]), s') ->
        fst (get_vcsl self id w) = Return (a, b))
  /\ (forall row s',
        db_get_vcsl (db_service self) id (store w) = (Return row, s') ->
        (row = PNone
         \/ exists l, (row = PTuple l \/ row = PList l) /\ length l <> 2%nat) ->
        fst (get_vcsl self id w) = Return (PNone, PNone)).
Proof.
  unfold get_issuer_url, get_vcsl. unfold_M.
  split; [|split; [|split; [|split; [|split]]]].
  - destruct (db_get_issuer_url _ _ _) as [[url|e] s']; eauto.
  - destruct (db_get_vcsl _ _ _) as [[row|e] s']; [|eauto].
    destruct (PyIter.unpack2 row) as [[a b]|e]; eauto.
  - intros e s' ->. reflexivity.
  - intros e s' ->. reflexivity.
  - intros a b s' ->. reflexivity.
  - intros row s' -> [->|(l & [->| ->] & Hlen)]; [reflexivity| |];
      destruct l as [|a [|b [|c l]]]; try reflexivity; now destruct Hlen.
Qed.

End OrchestratorMore.

Section OrchestratorMoreExamples.
Import Py Effects bsvlib BsvService.

Local Abbreviation B := Simulation.builtins.
Local Abbreviation L := (Simulation.lib Simulation.p2pkh_size).
Local Abbreviation memory := (Simulation.service Simulation.MemoryDb.service).

(** 600 satoshis against 546 of dust and 113 of fee. *)
Lemma add_vcsl_unfunded_witness :
  exists e w1,
    @add_vcsl B L (Simulation.network (Simulation.funded 600) (Simulation.ok "accepted" None))
      _ memory "list-1" "k51qzi5uqu5d" (Simulation.start Simulation.MemoryDb.empty)
    = (Raise (anchor_failed "list-1" e), w1)
    /\ store w1 = Simulation.MemoryDb.empty
    /\ length (log w1) = 1%nat.
Proof.
  edestruct (@add_vcsl_unfunded B L
               (Simulation.network (Simulation.funded 600) (Simulation.ok "accepted" None))
               _ memory "list-1" "k51qzi5uqu5d"
               (Simulation.start Simulation.MemoryDb.empty))
    as (e & Hrun & _ & Hstore & Hlog).
  - vm_compute. reflexivity.
  - right. eexists _, _. split; [reflexivity|]. vm_compute. reflexivity.
  - eexists _, _. split; [exact Hrun|]. split; [exact Hstore|].
    rewrite Hlog. reflexivity.
Defined.

Lemma add_vcsl_persists_returned_txid_witness :
  exists w',
    @add_vcsl B L Simulation.online _ memory "list-1" "k51qzi5uqu5d"
      (Simulation.start Simulation.MemoryDb.empty)
    = (Return "txid-2000-1887", w')
    /\ length (log w') = 3%nat.
Proof.
  eexists. split; [vm_compute; reflexivity|].
  edestruct (@add_vcsl_persists_returned_txid B L Simulation.online _ memory
               "list-1" "k51qzi5uqu5d" "txid-2000-1887"
               (Simulation.start Simulation.MemoryDb.empty))
    as (tx & o' & _ & _ & _ & Hlog & _);
    [vm_compute; reflexivity|].
  rewrite Hlog. reflexivity.
Defined.

(** The broadcast is rejected: the URL written first stays in the store. *)
Lemma set_issuer_url_store_witness :
  exists w',
    @set_issuer_url B L Simulation.rejecting _ memory "alice" "https://alice.example"
      (Simulation.start Simulation.MemoryDb.empty)
    = (Return None, w')
    /\ Simulation.MemoryDb.issuer_url (store w') !! "alice"
       = Some "https://alice.example".
Proof.
  eexists. split; [vm_compute; reflexivity|].
  edestruct (@set_issuer_url_store B L Simulation.rejecting _ memory
               "alice" "https://alice.example"
               (Simulation.start Simulation.MemoryDb.empty) (Return None))
    as (_ & _ & Hstore);
    [vm_compute; reflexivity|].
  rewrite Hstore. reflexivity.
Defined.

(** The record is in the store and the server is down. *)
Lemma service_getters_never_raise_witness :
  fst (get_vcsl Simulation.on_postgres "list-1"
         (Simulation.start (Simulation.postgres false)))
  = Return (PNone, PNone).
Proof.
  destruct (service_getters_never_raise Simulation.on_postgres "list-1"
              (Simulation.start (Simulation.postgres false)))
    as (_ & _ & _ & Hraise & _).
  eapply Hraise. reflexivity.
Defined.

End OrchestratorMoreExamples.

(** ** The PostgreSQL store *)

Section Postgres.
Import Py Effects PostgresDataStore.
Implicit Types (pg : PostgresDataStore.t).






End Postgres.

Section PostgresExamples.
Import Py Effects PostgresDataStore.






(** A pointer with a NUL character in it: the driver refuses it and the
    store is as it was. *)
Example store_vcsl_nul :
  store_vcsl "list-2" (String Ascii.zero "k51") "txid-2" (Simulation.postgres true)
  = (Raise data_error, Simulation.postgres true).
Proof. reflexivity. Qed.

End PostgresExamples.

(** ** The service on the PostgreSQL store, and the routes *)

Section Wired.
Import Py Effects bsvlib.
Context `{Builtins} `{Lib} `{Network}.
Implicit Types (w : world PostgresDataStore.t).

(** X16.  On the store [init_di] hands to the service, [set_issuer_url]
    fails in every state and for every issuer: the store class has no
    [update_issuer_url], the first write raises, and the call stops there
    with the store untouched and no network traffic; the route answers
    with status 500. *)
Theorem set_issuer_url_fails_on_postgres (net : string) (key : Key.t)
    (issuer_id new_issuer_url : string) w :
  let self :=
    {| BsvService.db_service := PostgresDataStore.as_db_service;
       BsvService.network := net; BsvService.wallet_key := key |} in
  let router := {| VcslRouter.bsv_service := self |} in
  (exists reason,
     BsvService.set_issuer_url self issuer_id new_issuer_url w
     = (Raise (Exception ("Failed to update issuer URL in database: " +:+ reason)),
        {| store := store w;
           log := log w ++ [DbCall (update_issuer_url issuer_id new_issuer_url)] |}))
  /\ exists detail,
       fst (VcslRouter.set_issuer_url router issuer_id
              (Some {| VcslRouter.url := Some new_issuer_url |}) w)
       = Raise (HTTPException 500 detail).
Proof.
  intros self router.
  assert (Hrun : BsvService.set_issuer_url self issuer_id new_issuer_url w
                 = (Raise (Exception
                             ("Failed to update issuer URL in database: "
                              +:+ "'PostgresDataStore' object has no attribute '"
                              +:+ "update_issuer_url" +:+ "'")),
                    {| store := store w;
                       log := log w ++ [DbCall (update_issuer_url issuer_id new_issuer_url)] |})).
  { rewrite set_issuer_url_run. reflexivity. }
  split; [eexists; exact Hrun|].
  unfold VcslRouter.set_issuer_url. unfold_M.
  change (VcslRouter.bsv_service router) with self.
  rewrite Hrun. eexists. reflexivity.
Qed.

(** X17.  On the same store, after a call of [add_vcsl] that returned,
    [get_vcsl] for that id gives the pointer and the transaction id the
    call returned, at the service and through the route; the other ids
    read as before the call. *)
Theorem add_vcsl_then_get_vcsl (net : string) (key : Key.t)
    (id ipns txid : string) w w' :
  let self :=
    {| BsvService.db_service := PostgresDataStore.as_db_service;
       BsvService.network := net; BsvService.wallet_key := key |} in
  let router := {| VcslRouter.bsv_service := self |} in
  BsvService.add_vcsl self id ipns w = (Return txid, w') ->
  fst (BsvService.get_vcsl self id w') = Return (PStr ipns, PStr txid)
  /\ fst (VcslRouter.get_vcsl router id w')
     = Return (PDict [("id", PStr id); ("ipns", PStr ipns); ("txid", PStr txid)])
  /\ forall other,
       other <> id ->
       fst (BsvService.get_vcsl self other w') = fst (BsvService.get_vcsl self other w).
Proof.
  intros self router. rewrite add_vcsl_run.
  destruct (BsvService.anchor self ("vcsl/" +:+ id) w) as [[txid'|e] w1] eqn:Ha;
    [|discriminate].
  destruct (anchor_effects _ _ _ _ _ Ha) as (Hstore & _).
  cbv zeta. cbn [BsvService.db_service self db_store_vcsl
                 PostgresDataStore.as_db_service].
  unfold PostgresDataStore.store_vcsl. rewrite Hstore.
  destruct (PostgresDataStore.pool (store w)) eqn:Hpool; [|discriminate].
  destruct (PostgresDataStore.server_up (store w)) eqn:Hup; [|discriminate].
  cbn.
  destruct (PostgresDataStore.has_nul id || PostgresDataStore.has_nul ipns
            || PostgresDataStore.has_nul txid') eqn:Hrow; [discriminate|].
  assert (Hid : PostgresDataStore.has_nul id = false).
  { apply orb_false_elim in Hrow. destruct Hrow as [Hrow _].
    now apply orb_false_elim in Hrow. }
  cbn. intros [= <- <-].
  unfold VcslRouter.get_vcsl, BsvService.get_vcsl. unfold_M.
  cbn [VcslRouter.bsv_service router BsvService.db_service self db_get_vcsl
       PostgresDataStore.as_db_service store].
  unfold PostgresDataStore.get_vcsl. cbn. rewrite Hpool, Hup, Hid. cbn.
  rewrite lookup_insert_eq. cbn.
  split; [reflexivity|]. split; [reflexivity|].
  intros other Hne. destruct (PostgresDataStore.has_nul other); [reflexivity|].
  rewrite lookup_insert_ne by congruence.
  now destruct (PostgresDataStore.vcsl_data (store w) !! other) as [[? ?]|].
Qed.

End Wired.

Section Routes.
Import Py Effects bsvlib.
Context `{Builtins} `{Lib} `{Network} {S : Type}.
Implicit Types (router : VcslRouter.t S) (w : world S).

(** X18.  Whatever the service, the store and the network do, an error of
    one of the four routes is an [HTTPException] with status 400 or 500,
    never 404.  Status 400 is the answer to a request without its data, and
    then nothing was called; every other failure, a missing record among
    them, has status 500. *)
Theorem route_errors_are_400_or_500 router w (e : exn) :
  (forall issuer_id url_data,
     fst (VcslRouter.set_issuer_url router issuer_id url_data w) = Raise e ->
     exists detail,
       e = HTTPException 500 detail
       \/ (e = HTTPException 400 detail
           /\ (url_data = None \/ url_data = Some {| VcslRouter.url := None |})
           /\ snd (VcslRouter.set_issuer_url router issuer_id url_data w) = w))
  /\ (forall data,
        fst (VcslRouter.add_vcsl router data w) = Raise e ->
        exists detail,
          e = HTTPException 500 detail
          \/ (e = HTTPException 400 detail
              /\ (forall id ipns,
                    data <> Some {| VcslRouter.id := Some id;
                                    VcslRouter.ipns := Some ipns |})
              /\ snd (VcslRouter.add_vcsl router data w) = w))
  /\ (forall issuer_id,
        fst (VcslRouter.get_issuer_url router issuer_id w) = Raise e ->
        exists detail, e = HTTPException 500 detail)
  /\ (forall id,
        fst (VcslRouter.get_vcsl router id w) = Raise e ->
        exists detail, e = HTTPException 500 detail).
Proof.
  split; [|split; [|split]].
  - intros issuer_id [[[url|]]|]; unfold VcslRouter.set_issuer_url; unfold_M.
    + destruct (BsvService.set_issuer_url _ _ _ w) as [[[[|c txid]|]|e'] w1];
        cbn; intros [= <-] || discriminate. eexists. left. reflexivity.
    + intros [= <-]. eexists. right. auto.
    + intros [= <-]. eexists. right. auto.
  - intros [[[id|] [ipns|]]|]; unfold VcslRouter.add_vcsl; unfold_M;
      try (intros [= <-]; eexists; right;
           split; [reflexivity|split; [intros; discriminate|reflexivity]]).
    destruct (BsvService.add_vcsl _ _ _ w) as [[txid|e'] w1];
      cbn; intros [= <-] || discriminate. eexists. left. reflexivity.
  - intros issuer_id. unfold VcslRouter.get_issuer_url. unfold_M.
    destruct (BsvService.get_issuer_url _ _ w) as [[url|e'] w1]; cbn.
    + destruct (is_None url); cbn; intros [= <-] || discriminate. eauto.
    + intros [= <-]. eauto.
  - intros id. unfold VcslRouter.get_vcsl. unfold_M.
    destruct (BsvService.get_vcsl _ _ w) as [[[ipns txid]|e'] w1]; cbn.
    + destruct (is_None ipns); cbn; intros [= <-] || discriminate. eauto.
    + intros [= <-]. eauto.
Qed.

(** X19.  Once the first store write of [set_issuer_url] has succeeded the
    route answers without error, whatever happens to the anchor: with the
    transaction id when the service returned a non-empty one, and
    otherwise with the text that the URL was updated off-chain. *)
Theorem route_set_issuer_url_after_first_write router (issuer_id new_url : string)
    w (s' : S) :
  let self := VcslRouter.bsv_service router in
  let answer :=
    fst (VcslRouter.set_issuer_url router issuer_id
           (Some {| VcslRouter.url := Some new_url |}) w) in
  db_update_issuer_url (BsvService.db_service self) issuer_id new_url (store w)
    = (Return tt, s') ->
  (exists c rest,
     fst (BsvService.set_issuer_url self issuer_id new_url w)
       = Return (Some (String c rest))
     /\ answer = Return (PDict [("issuer_id", PStr issuer_id);
                                ("txid", PStr (String c rest))]))
  \/ ((fst (BsvService.set_issuer_url self issuer_id new_url w) = Return None
       \/ fst (BsvService.set_issuer_url self issuer_id new_url w)
          = Return (Some EmptyString))
      /\ answer
         = Return (PDict [("issuer_id", PStr issuer_id);
                          ("status",
                           PStr "URL updated off-chain, anchoring failed or skipped")])).
Proof.
  intros self answer Hfirst. subst answer.
  unfold VcslRouter.set_issuer_url. unfold_M. fold self.
  rewrite set_issuer_url_run. cbv zeta. rewrite Hfirst.
  destruct (BsvService.anchor self _ _) as [[[|c rest]|e] w1]; cbn.
  - right. auto.
  - left. eauto.
  - right. auto.
Qed.

End Routes.

Section RoutesExamples.
Import Py Effects bsvlib.

Local Abbreviation B := Simulation.builtins.
Local Abbreviation L := (Simulation.lib Simulation.p2pkh_size).

Lemma add_vcsl_then_get_vcsl_witness :
  exists w',
    @BsvService.add_vcsl B L Simulation.online _ Simulation.on_postgres
      "list-2" "k51qzi5uqu5e" (Simulation.start (Simulation.postgres true))
    = (Return "txid-2000-1887", w')
    /\ fst (VcslRouter.get_vcsl {| VcslRouter.bsv_service := Simulation.on_postgres |}
              "list-2" w')
       = Return (PDict [("id", PStr "list-2"); ("ipns", PStr "k51qzi5uqu5e");
                        ("txid", PStr "txid-2000-1887")]).
Proof.
  eexists. split; [vm_compute; reflexivity|].
  eapply (@add_vcsl_then_get_vcsl B L Simulation.online "testnet" Simulation.master
            "list-2" "k51qzi5uqu5e" "txid-2000-1887"
            (Simulation.start (Simulation.postgres true))).
  vm_compute. reflexivity.
Defined.

(** An issuer the store does not know: status 500. *)
Lemma route_errors_are_400_or_500_witness :
  exists detail,
    fst (VcslRouter.get_issuer_url
           {| VcslRouter.bsv_service := Simulation.on_postgres |} "bob"
           (Simulation.start (Simulation.postgres true)))
    = Raise (HTTPException 500 detail).
Proof.
  eassert (Hrun : fst (VcslRouter.get_issuer_url
                         {| VcslRouter.bsv_service := Simulation.on_postgres |} "bob"
                         (Simulation.start (Simulation.postgres true)))
                  = Raise _) by (vm_compute; reflexivity).
  match type of Hrun with
  | _ = Raise ?e =>
      destruct (@route_errors_are_400_or_500 B L Simulation.online _
                  {| VcslRouter.bsv_service := Simulation.on_postgres |}
                  (Simulation.start (Simulation.postgres true)) e)
        as (_ & _ & Hget & _)
  end.
  destruct (Hget "bob" Hrun) as [detail Hd].
  exists detail. rewrite Hrun. f_equal. exact Hd.
Defined.

(** The broadcast is rejected and the route answers all the same. *)
Lemma route_set_issuer_url_after_first_write_witness :
  fst (@VcslRouter.set_issuer_url B L Simulation.rejecting _
         {| VcslRouter.bsv_service := Simulation.service Simulation.MemoryDb.service |}
         "alice" (Some {| VcslRouter.url := Some "https://alice.example" |})
         (Simulation.start Simulation.MemoryDb.empty))
  = Return (PDict [("issuer_id", PStr "alice");
                   ("status", PStr "URL updated off-chain, anchoring failed or skipped")]).
Proof.
  destruct (@route_set_issuer_url_after_first_write B L Simulation.rejecting _
              {| VcslRouter.bsv_service := Simulation.service Simulation.MemoryDb.service |}
              "alice" "https://alice.example"
              (Simulation.start Simulation.MemoryDb.empty) _ eq_refl)
    as [(c & rest & Hsvc & _)|(_ & Hanswer)].
  - vm_compute in Hsvc. discriminate Hsvc.
  - exact Hanswer.
Defined.

End RoutesExamples.
